(** * Completing a draft order: [DraftOrderComplete]

    A shallow embedding of
    [saleor/graphql/order/mutations/draft_order_complete.py] and the
    properties of the completion step that its specification states.

    The mutation is stateful Python: it loads an order, mutates the
    in-memory instance, writes it back, then walks the order lines and
    calls the warehouse allocators inside one database transaction per
    line.  It is embedded as a state-and-exception monad over a [World]
    made of the database rows and a log of the calls that leave the
    mutation. *)

From Stdlib Require Import ZArith.
From stdpp Require Import gmap strings list fin_maps.

Local Open Scope Z_scope.

(* ===================================================================== *)
(** ** Data model *)
(* ===================================================================== *)

(** Modelled from the spec: the enumeration [saleor.order.OrderStatus] is
    declared outside the mutation; the spec names Draft and Unfulfilled and
    leaves the other lifecycle states out of scope. *)
Inductive OrderStatus : Type :=
| DRAFT
| UNFULFILLED
| OtherStatus (name : string).

#[global] Instance OrderStatus_eq_dec : EqDecision OrderStatus.
Proof. solve_decision. Defined.

(** Modelled from the spec: the enumeration
    [saleor.order.error_codes.OrderErrorCode] is declared outside the
    mutation; the spec's taxonomy has the invalid-state and the
    insufficient-stock failures, and the callees have codes of their own. *)
Inductive OrderErrorCode : Type :=
| INVALID
| INSUFFICIENT_STOCK
| OtherCode (name : string).

Record User : Type := mkUser {
  user_pk : nat;
  email : string
}.

Record Address : Type := mkAddress {
  address_pk : nat;
  country_code : string
}.

Record Channel : Type := mkChannel {
  slug : string
}.

(** Prices.  Only the zero amount is ever built by the mutation. *)
Record Money : Type := mkMoney {
  amount : Z;
  money_currency : string
}.

Record TaxedMoney : Type := mkTaxedMoney {
  net : Money;
  gross : Money
}.

(** Modelled from the spec: [saleor.core.taxes.zero_taxed_money] is
    declared outside the mutation; it is the zero amount, net and gross, in
    the given currency. *)
Definition zero_taxed_money (currency : string) : TaxedMoney :=
  let zero := mkMoney 0 currency in
  mkTaxedMoney zero zero.

Record ProductVariant : Type := mkVariant {
  variant_pk : nat;
  track_inventory : bool;
  preorder_active : bool
}.

(** Modelled from the spec: [ProductVariant.is_preorder_active] is declared
    on the model class, outside the mutation; the spec's Variant carries a
    preorder-active flag. *)
Definition is_preorder_active (v : ProductVariant) : bool :=
  preorder_active v.

Record OrderLine : Type := mkOrderLine {
  line_pk : nat;
  line_variant : ProductVariant;
  line_quantity : Z
}.

(** The order instance as the mutation sees it, with the attributes it
    reads and writes, and with its lines and their variants prefetched
    ([prefetch_related("lines__variant")]). *)
Record Order : Type := mkOrder {
  status : OrderStatus;
  user : option User;
  user_email : string;
  currency : string;
  shipping_required : bool;
  shipping_method_name : option string;
  shipping_price : TaxedMoney;
  shipping_address : option Address;
  search_document : string;
  channel : Channel;
  lines : list OrderLine
}.

(** Attribute assignments on the in-memory order. *)
Definition set_status (s : OrderStatus) (o : Order) : Order :=
  mkOrder s (user o) (user_email o) (currency o) (shipping_required o)
    (shipping_method_name o) (shipping_price o) (shipping_address o)
    (search_document o) (channel o) (lines o).

Definition set_user (u : option User) (o : Order) : Order :=
  mkOrder (status o) u (user_email o) (currency o) (shipping_required o)
    (shipping_method_name o) (shipping_price o) (shipping_address o)
    (search_document o) (channel o) (lines o).

Definition set_user_email (e : string) (o : Order) : Order :=
  mkOrder (status o) (user o) e (currency o) (shipping_required o)
    (shipping_method_name o) (shipping_price o) (shipping_address o)
    (search_document o) (channel o) (lines o).

Definition set_shipping_method_name (n : option string) (o : Order) : Order :=
  mkOrder (status o) (user o) (user_email o) (currency o) (shipping_required o)
    n (shipping_price o) (shipping_address o)
    (search_document o) (channel o) (lines o).

Definition set_shipping_price (p : TaxedMoney) (o : Order) : Order :=
  mkOrder (status o) (user o) (user_email o) (currency o) (shipping_required o)
    (shipping_method_name o) p (shipping_address o)
    (search_document o) (channel o) (lines o).

Definition set_shipping_address (a : option Address) (o : Order) : Order :=
  mkOrder (status o) (user o) (user_email o) (currency o) (shipping_required o)
    (shipping_method_name o) (shipping_price o) a
    (search_document o) (channel o) (lines o).

Definition set_search_document (d : string) (o : Order) : Order :=
  mkOrder (status o) (user o) (user_email o) (currency o) (shipping_required o)
    (shipping_method_name o) (shipping_price o) (shipping_address o)
    d (channel o) (lines o).

(** What the deletion of the address row [a] does to an order row that
    points at it: the foreign key from an order to its shipping address is
    nullable and is set to NULL when the address goes. *)
Definition detach_address (a : Address) (o : Order) : Order :=
  match shipping_address o with
  | Some a' =>
      if decide (address_pk a' = address_pk a)
      then set_shipping_address None o
      else o
  | None => o
  end.

(** Modelled from the spec: [Order.is_draft] and
    [Order.is_shipping_required] are methods of the model class, declared
    outside the mutation; the spec's Order has a status and a shipping
    requirement flag. *)
Definition is_draft (o : Order) : bool :=
  bool_decide (status o = DRAFT).

Definition is_shipping_required (o : Order) : bool :=
  shipping_required o.

(** [saleor.order.fetch.OrderLineInfo]. *)
Record OrderLineInfo : Type := mkOrderLineInfo {
  line : OrderLine;
  quantity : Z;
  variant : ProductVariant
}.

(** Modelled from the spec: [saleor.core.exceptions.InsufficientStock] and
    its items are declared outside the mutation; a shortage carries the
    variant, the line, and the quantity that was found available. *)
Record InsufficientStockData : Type := mkInsufficientStockData {
  short_variant : ProductVariant;
  short_order_line : option OrderLine;
  available_quantity : option Z
}.

(** A leaf [ValidationError]: message, code and the order lines it names. *)
Record ErrorItem : Type := mkErrorItem {
  message : string;
  code : OrderErrorCode;
  params_order_lines : list nat
}.

(** The exceptions that travel through the mutation.  A [ValidationError]
    built from a dict maps field names to leaf errors. *)
Inductive Exception : Type :=
| ValidationError (error_dict : list (string * list ErrorItem))
| InsufficientStock (items : list InsufficientStockData)
| DoesNotExist.

(** Python truthiness of a [str]. *)
Definition truthy (s : string) : bool :=
  negb (String.eqb s "").

(* ===================================================================== *)
(** ** The world around the mutation *)
(* ===================================================================== *)

(** Types that belong to collaborators the mutation only passes along:
    the rows of the Stock Ledger and Reservation Index that the allocators
    own, the plugins manager, the site settings, the requesting app and
    payments. *)
Class Domain : Type := {
  Stock : Type;
  PluginsManager : Type;
  SiteSettings : Type;
  App : Type;
  Payment : Type
}.

Section World.
Context `{Domain}.

(** Database rows.  [User.email] is unique, so users are keyed by it. *)
Record Db : Type := mkDb {
  order_rows : gmap nat Order;
  address_rows : gmap nat Address;
  user_rows : gmap string User;
  stock : Stock
}.

(** [saleor.order.fetch.OrderInfo]. *)
Record OrderInfo : Type := mkOrderInfo {
  info_order : Order;
  customer_email : string;
  info_channel : Channel;
  payment : option Payment;
  lines_data : list OrderLineInfo
}.

(** The request context, [info.context]. *)
Record Info : Type := mkInfo {
  plugins : PluginsManager;
  site_settings : SiteSettings;
  context_user : option User;
  context_app : option App
}.

(** What leaves the mutation, in the order it happens: writes of the order
    and address rows, the calls into the warehouse allocators, and the
    [order_created] call. *)
Inductive Effect : Type :=
| SaveOrder (pk : nat) (o : Order)
| DeleteAddress (a : Address)
| AllocateStocks (order_lines_info : list OrderLineInfo) (country : string)
    (channel_slug : string) (manager : PluginsManager)
    (check_reservations : bool)
| AllocatePreorders (order_lines_info : list OrderLineInfo)
    (channel_slug : string) (check_reservations : bool)
| OrderCreated (order_info : OrderInfo) (u : option User) (a : option App)
    (manager : PluginsManager) (from_draft : bool).

Record World : Type := mkWorld {
  db : Db;
  log : list Effect
}.

Definition set_stock (s : Stock) (d : Db) : Db :=
  mkDb (order_rows d) (address_rows d) (user_rows d) s.

Definition set_db (d : Db) (w : World) : World := mkWorld d (log w).

Definition emit (e : Effect) (w : World) : World :=
  mkWorld (db w) (log w ++ [e]).

End World.

(* ===================================================================== *)
(** ** State and exceptions *)
(* ===================================================================== *)

(** How a piece of Python ends: it returns a value or raises. *)
Inductive outcome (A : Type) : Type :=
| Returned (a : A)
| Raised (e : Exception).

Arguments Returned {A} a.
Arguments Raised {A} e.

Section Monad.
Context `{Domain}.

(** A computation reads and writes the world; a raise keeps the world as
    it was when the exception left, since Python undoes nothing by itself. *)
Definition M (A : Type) : Type := World -> World * outcome A.

Definition ret {A : Type} (a : A) : M A :=
  fun w => (w, Returned a).

Definition raise {A : Type} (e : Exception) : M A :=
  fun w => (w, Raised e).

Definition bind {A B : Type} (m : M A) (k : A -> M B) : M B :=
  fun w =>
    match m w with
    | (w', Returned a) => k a w'
    | (w', Raised e) => (w', Raised e)
    end.

Definition gets {A : Type} (f : World -> A) : M A :=
  fun w => (w, Returned (f w)).

Definition modify (f : World -> World) : M unit :=
  fun w => (f w, Returned tt).

(** [try: body  except InsufficientStock as exc: handler]. *)
Definition except_InsufficientStock {A : Type}
    (body : M A) (handler : list InsufficientStockData -> M A) : M A :=
  fun w =>
    match body w with
    | (w', Raised (InsufficientStock items)) => handler items w'
    | r => r
    end.

(** [try: body  except User.DoesNotExist: handler]. *)
Definition except_DoesNotExist {A : Type} (body : M A) (handler : M A) : M A :=
  fun w =>
    match body w with
    | (w', Raised DoesNotExist) => handler w'
    | r => r
    end.

(** Modelled from the spec: [saleor.core.tracing.traced_atomic_transaction]
    is declared outside the mutation; the spec has each line run as a
    single atomic unit that is aborted as a whole on a shortage.  It is the
    [with traced_atomic_transaction(): body] block, a wrapper around
    Django's [transaction.atomic]: when an exception leaves the block the
    database goes back to what it was on entry and the exception travels
    on; otherwise the writes of the block stay.  The log is not part of the
    database. *)
Definition traced_atomic_transaction {A : Type} (body : M A) : M A :=
  fun w =>
    match body w with
    | (w', Returned a) => (w', Returned a)
    | (w', Raised e) => (set_db (db w) w', Raised e)
    end.

End Monad.

Declare Scope py_scope.
Delimit Scope py_scope with py.
Notation "x <- c1 ;; c2" := (bind c1 (fun x => c2))
  (at level 100, c1 at next level, right associativity) : py_scope.
Notation "c1 ;;; c2" := (bind c1 (fun _ => c2))
  (at level 100, right associativity) : py_scope.
Local Open Scope py_scope.

(* ===================================================================== *)
(** ** Collaborators *)
(* ===================================================================== *)

(** The functions the mutation imports, taken as parameters; [node_error]
    is the error the node resolver raises for a key without a row, and a
    validation that returns [Some e] raised [e].  The allocators own the
    stock rows: each takes them and hands them back, together with the
    items of the [InsufficientStock] it raised, if it raised; the rows it
    hands back on a raise are whatever it had written up to then. *)
Class Collaborators `{Domain} : Type := {
  node_error : nat -> Exception;
  get_order_country : Order -> string;
  validate_draft_order :
    Db -> Order -> string -> PluginsManager -> option Exception;
  prepare_order_search_document_value : Db -> Order -> string;
  is_reservation_enabled : SiteSettings -> bool;
  allocate_stocks :
    list OrderLineInfo -> string -> string -> PluginsManager -> bool ->
    Stock -> Stock * option (list InsufficientStockData);
  allocate_preorders :
    list OrderLineInfo -> string -> bool ->
    Stock -> Stock * option (list InsufficientStockData);
  prepare_insufficient_stock_order_validation_errors :
    list InsufficientStockData -> list ErrorItem;
  get_customer_email : Order -> string;
  get_last_payment : Db -> Order -> option Payment
}.

Section Mutation.
Context `{Collaborators}.

(** *** Calls that touch the world *)

(** Modelled from the spec: [BaseMutation.get_node_or_error] is declared
    outside the mutation; node resolution is an external step that yields
    the order or fails.  It is
    [cls.get_node_or_error(info, id, only_type=Order, qs=...)]: the order
    row with that key, or the resolver's error. *)
Definition get_node_or_error (id : nat) : M Order :=
  fun w =>
    match order_rows (db w) !! id with
    | Some order => (w, Returned order)
    | None => (w, Raised (node_error id))
    end.

(** [User.objects.get(email=...)]. *)
Definition User_objects_get (e : string) : M User :=
  fun w =>
    match user_rows (db w) !! e with
    | Some u => (w, Returned u)
    | None => (w, Raised DoesNotExist)
    end.

(** [order.shipping_address.delete()], Django's [Model.delete()]: the
    address row goes, and every order row that points at it as its
    shipping address, the row of the order at hand included, has that
    reference cleared in the database.  The instance in memory is not
    touched.  An order's billing address is a nullable reference of the
    same kind; the mutation neither reads nor writes it and the order
    record does not carry it, so that only the clearing of shipping
    addresses shows in the rows. *)
Definition Address_delete (a : Address) : M unit :=
  modify (fun w =>
    emit (DeleteAddress a)
      (set_db (mkDb (detach_address a <$> order_rows (db w))
                    (delete (address_pk a) (address_rows (db w)))
                    (user_rows (db w)) (stock (db w))) w)).

(** [order.save()]; the instance keeps the key it was fetched by. *)
Definition Order_save (pk : nat) (order : Order) : M unit :=
  modify (fun w =>
    emit (SaveOrder pk order)
      (set_db (mkDb (<[pk := order]> (order_rows (db w)))
                    (address_rows (db w))
                    (user_rows (db w)) (stock (db w))) w)).

(** A call of an allocator: logged, run on the stock rows, and turned into
    a return or a raise. *)
Definition run_allocator
    (call : Effect)
    (f : Stock -> Stock * option (list InsufficientStockData)) : M unit :=
  fun w =>
    let w1 := emit call w in
    match f (stock (db w1)) with
    | (s, None) => (set_db (set_stock s (db w1)) w1, Returned tt)
    | (s, Some items) =>
        (set_db (set_stock s (db w1)) w1, Raised (InsufficientStock items))
    end.

Definition call_allocate_stocks
    (order_lines_info : list OrderLineInfo) (country channel_slug : string)
    (manager : PluginsManager) (check_reservations : bool) : M unit :=
  run_allocator
    (AllocateStocks order_lines_info country channel_slug manager
       check_reservations)
    (allocate_stocks order_lines_info country channel_slug manager
       check_reservations).

Definition call_allocate_preorders
    (order_lines_info : list OrderLineInfo) (channel_slug : string)
    (check_reservations : bool) : M unit :=
  run_allocator
    (AllocatePreorders order_lines_info channel_slug check_reservations)
    (allocate_preorders order_lines_info channel_slug check_reservations).

Definition call_validate_draft_order
    (order : Order) (country : string) (manager : PluginsManager) : M unit :=
  fun w =>
    match validate_draft_order (db w) order country manager with
    | None => (w, Returned tt)
    | Some e => (w, Raised e)
    end.

(** Modelled from the spec: [saleor.order.actions.order_created] is
    declared outside the mutation; the spec has it produce the completion
    event for the notification and analytics consumers.  It is
    [order_created(order_info=..., user=..., app=..., manager=...,
    from_draft=True)], which puts the event with its arguments in the
    log. *)
Definition order_created
    (order_info : OrderInfo) (u : option User) (a : option App)
    (manager : PluginsManager) (from_draft : bool) : M unit :=
  modify (emit (OrderCreated order_info u a manager from_draft)).

(** *** [DraftOrderComplete] *)

Definition update_user_fields (order : Order) : M Order :=
  match user order with
  | Some u => ret (set_user_email (email u) order)
  | None =>
      if truthy (user_email order) then
        except_DoesNotExist
          (u <- User_objects_get (user_email order) ;;
           ret (set_user (Some u) order))
          (ret (set_user None order))
      else ret order
  end.

Definition validate_order (order : Order) : M unit :=
  if negb (is_draft order) then
    raise (ValidationError
             [("id", [mkErrorItem "The order is not draft." INVALID []])])
  else ret tt.

(** The body of the [for line in order.lines.all()] loop for a line that
    passed the [if]: the [try] with its transaction around the two
    allocator calls, each given the one-line list [[line_data]]. *)
Definition allocate_line
    (info : Info) (country channel_slug : string) (manager : PluginsManager)
    (line_data : OrderLineInfo) : M unit :=
  except_InsufficientStock
    (traced_atomic_transaction
       (call_allocate_stocks [line_data] country channel_slug manager
          (is_reservation_enabled (site_settings info)) ;;;
        call_allocate_preorders [line_data] channel_slug
          (is_reservation_enabled (site_settings info))))
    (fun exc =>
       let errors := prepare_insufficient_stock_order_validation_errors exc in
       raise (ValidationError [("lines", errors)])).

(** The [for] loop, with [order_lines_info] as its running list. *)
Fixpoint allocate_order_lines
    (info : Info) (country channel_slug : string) (manager : PluginsManager)
    (order_lines : list OrderLine) (order_lines_info : list OrderLineInfo)
    : M (list OrderLineInfo) :=
  match order_lines with
  | [] => ret order_lines_info
  | line :: rest =>
      if track_inventory (line_variant line)
         || is_preorder_active (line_variant line)
      then
        let line_data :=
          mkOrderLineInfo line (line_quantity line) (line_variant line) in
        let order_lines_info := order_lines_info ++ [line_data] in
        allocate_line info country channel_slug manager line_data ;;;
        allocate_order_lines info country channel_slug manager rest
          order_lines_info
      else
        allocate_order_lines info country channel_slug manager rest
          order_lines_info
  end.

(** The [if not order.is_shipping_required():] block. *)
Definition normalize_shipping (order : Order) : M Order :=
  if negb (is_shipping_required order) then
    let order := set_shipping_method_name None order in
    let order := set_shipping_price (zero_taxed_money (currency order)) order in
    match shipping_address order with
    | Some a =>
        Address_delete a ;;;
        ret (set_shipping_address None order)
    | None => ret order
    end
  else ret order.

Definition perform_mutation (info : Info) (id : nat) : M Order :=
  let manager := plugins info in
  order <- get_node_or_error id ;;
  validate_order order ;;;
  let country := get_order_country order in
  call_validate_draft_order order country (plugins info) ;;;
  order <- update_user_fields order ;;
  let order := set_status UNFULFILLED order in
  order <- normalize_shipping order ;;
  document <- gets (fun w => prepare_order_search_document_value (db w) order) ;;
  let order := set_search_document document order in
  Order_save id order ;;;
  let channel := channel order in
  let channel_slug := slug channel in
  order_lines_info <-
    allocate_order_lines info country channel_slug manager (lines order) [] ;;
  let customer_email := get_customer_email order in
  payment <- gets (fun w => get_last_payment (db w) order) ;;
  let order_info :=
    mkOrderInfo order customer_email channel payment order_lines_info in
  order_created order_info (context_user info) (context_app info)
    (plugins info) true ;;;
  ret order.

End Mutation.

(* ===================================================================== *)
(** ** Vocabulary of the properties *)
(* ===================================================================== *)

(** The loop's [if]: the line's variant tracks inventory or is
    preorder-active. *)
Definition needs_allocation (l : OrderLine) : bool :=
  track_inventory (line_variant l) || is_preorder_active (line_variant l).

(** [OrderLineInfo(line=line, quantity=line.quantity, variant=line.variant)]. *)
Definition order_line_info (l : OrderLine) : OrderLineInfo :=
  mkOrderLineInfo l (line_quantity l) (line_variant l).

(** The lines of an order that the loop hands to the allocators. *)
Definition allocated_lines (o : Order) : list OrderLineInfo :=
  map order_line_info (List.filter needs_allocation (lines o)).

Section Vocabulary.
Context `{Collaborators}.

(** The lines an effect carries: those given to an allocator, or those in
    the [lines_data] of the completion event. *)
Definition effect_lines (e : Effect) : list OrderLine :=
  match e with
  | AllocateStocks infos _ _ _ _ => map line infos
  | AllocatePreorders infos _ _ => map line infos
  | OrderCreated order_info _ _ _ _ => map line (lines_data order_info)
  | _ => []
  end.

Definition is_allocation (e : Effect) : bool :=
  match e with
  | AllocateStocks _ _ _ _ _ | AllocatePreorders _ _ _ => true
  | _ => false
  end.

Definition is_order_created (e : Effect) : bool :=
  match e with
  | OrderCreated _ _ _ _ _ => true
  | _ => false
  end.

(** The lines handed to [allocate_stocks], call after call. *)
Definition stock_calls (l : list Effect) : list OrderLineInfo :=
  flat_map (fun e => match e with
                     | AllocateStocks infos _ _ _ _ => infos
                     | _ => []
                     end) l.

(** The lines handed to [allocate_preorders], call after call. *)
Definition preorder_calls (l : list Effect) : list OrderLineInfo :=
  flat_map (fun e => match e with
                     | AllocatePreorders infos _ _ => infos
                     | _ => []
                     end) l.

(** The two calls the loop makes for one line when neither raises. *)
Definition line_calls
    (info : Info) (country channel_slug : string)
    (line_data : OrderLineInfo) : list Effect :=
  [AllocateStocks [line_data] country channel_slug (plugins info)
     (is_reservation_enabled (site_settings info));
   AllocatePreorders [line_data] channel_slug
     (is_reservation_enabled (site_settings info))].

(** What the allocators alone do with one line: the stock rows after both
    returned, or the items of the first [InsufficientStock]. *)
Definition line_allocation
    (info : Info) (country channel_slug : string)
    (line_data : OrderLineInfo) (s : Stock)
    : Stock + list InsufficientStockData :=
  match allocate_stocks [line_data] country channel_slug (plugins info)
          (is_reservation_enabled (site_settings info)) s with
  | (s1, None) =>
      match allocate_preorders [line_data] channel_slug
              (is_reservation_enabled (site_settings info)) s1 with
      | (s2, None) => inl s2
      | (_, Some items) => inr items
      end
  | (_, Some items) => inr items
  end.

(** The same for a list of lines, each starting from the rows the one
    before left, up to the first that raises. *)
Fixpoint lines_allocation
    (info : Info) (country channel_slug : string)
    (lines_info : list OrderLineInfo) (s : Stock)
    : Stock + list InsufficientStockData :=
  match lines_info with
  | [] => inl s
  | line_data :: rest =>
      match line_allocation info country channel_slug line_data s with
      | inl s' => lines_allocation info country channel_slug rest s'
      | inr items => inr items
      end
  end.

(** The calls made for a line whose allocation raises: always
    [allocate_stocks], and [allocate_preorders] when the former returned. *)
Definition failed_line_calls
    (info : Info) (country channel_slug : string)
    (line_data : OrderLineInfo) (s : Stock) : list Effect :=
  match allocate_stocks [line_data] country channel_slug (plugins info)
          (is_reservation_enabled (site_settings info)) s with
  | (_, None) => line_calls info country channel_slug line_data
  | (_, Some _) =>
      [AllocateStocks [line_data] country channel_slug (plugins info)
         (is_reservation_enabled (site_settings info))]
  end.

(** [order'] is what completion saves for [order], and [gone] the address
    rows it deleted on the way: the shipping fields are cleared exactly
    when [order] requires no shipping; the status is Unfulfilled, and the
    lines, the channel and the currency are those of [order]. *)
Definition shipping_normalized
    (order order' : Order) (gone : list Address) : Prop :=
  if is_shipping_required order then
    shipping_method_name order' = shipping_method_name order /\
    shipping_price order' = shipping_price order /\
    shipping_address order' = shipping_address order /\
    gone = []
  else
    shipping_method_name order' = None /\
    shipping_price order' = zero_taxed_money (currency order) /\
    shipping_address order' = None /\
    gone = match shipping_address order with
           | Some a => [a]
           | None => []
           end.

Definition saved_as (order order' : Order) (gone : list Address) : Prop :=
  status order' = UNFULFILLED /\
  lines order' = lines order /\
  channel order' = channel order /\
  currency order' = currency order /\
  shipping_normalized order order' gone.

Definition delete_addresses
    (gone : list Address) (rows : gmap nat Address) : gmap nat Address :=
  foldr (fun a m => delete (address_pk a) m) rows gone.

(** The order rows once the addresses [gone] are deleted. *)
Definition detach_addresses
    (gone : list Address) (rows : gmap nat Order) : gmap nat Order :=
  foldr (fun a m => detach_address a <$> m) rows gone.

(** The database once the addresses [gone] are deleted, [order'] is saved
    under [pk] and the stock rows are [s]. *)
Definition completed_db
    (pk : nat) (order' : Order) (gone : list Address) (s : Stock) (d : Db)
    : Db :=
  mkDb (<[pk := order']> (detach_addresses gone (order_rows d)))
       (delete_addresses gone (address_rows d))
       (user_rows d) s.

(** What a call of an allocator comes to: the rows it leaves when it
    returns, the items of its exception when it raises. *)
Definition allocator_outcome
    (r : Stock * option (list InsufficientStockData))
    : Stock + list InsufficientStockData :=
  match r with
  | (s, None) => inl s
  | (_, Some items) => inr items
  end.

(** One line sent down the one path of its flag: to [allocate_stocks]
    when its variant tracks inventory, to [allocate_preorders] when it
    does not. *)
Definition routed_line_allocation
    (info : Info) (country channel_slug : string)
    (line_data : OrderLineInfo) (s : Stock)
    : Stock + list InsufficientStockData :=
  if track_inventory (variant line_data) then
    allocator_outcome
      (allocate_stocks [line_data] country channel_slug (plugins info)
         (is_reservation_enabled (site_settings info)) s)
  else
    allocator_outcome
      (allocate_preorders [line_data] channel_slug
         (is_reservation_enabled (site_settings info)) s).

(** The same for a list of lines, up to the first that raises. *)
Fixpoint routed_lines_allocation
    (info : Info) (country channel_slug : string)
    (lines_info : list OrderLineInfo) (s : Stock)
    : Stock + list InsufficientStockData :=
  match lines_info with
  | [] => inl s
  | line_data :: rest =>
      match routed_line_allocation info country channel_slug line_data s with
      | inl s' => routed_lines_allocation info country channel_slug rest s'
      | inr items => inr items
      end
  end.

End Vocabulary.

(* ===================================================================== *)
(** ** A small shop *)
(* ===================================================================== *)

(** Concrete collaborators and rows on which the properties are run.  The
    stock rows are two pools keyed by variant: the quantity that can still
    be allocated from the warehouses and the preorder capacity. *)
Module Shop.

Record Pools : Type := mkPools {
  warehouse_pool : gmap nat Z;
  preorder_pool : gmap nat Z
}.

#[global] Instance domain : Domain := {|
  Stock := Pools;
  PluginsManager := unit;
  SiteSettings := bool;
  App := unit;
  Payment := nat
|}.

(** Take a line's quantity out of a pool, or report what is there. *)
Definition take (pool : gmap nat Z) (line_data : OrderLineInfo)
    : gmap nat Z + InsufficientStockData :=
  let have := default 0 (pool !! variant_pk (variant line_data)) in
  if quantity line_data <=? have then
    inl (<[variant_pk (variant line_data) := have - quantity line_data]> pool)
  else
    inr (mkInsufficientStockData (variant line_data)
           (Some (line line_data)) (Some have)).

(** Allocate the selected lines of a batch from a pool, collecting the
    lines that do not fit. *)
Fixpoint allocate (select : ProductVariant -> bool)
    (lines_info : list OrderLineInfo) (pool : gmap nat Z)
    : gmap nat Z * list InsufficientStockData :=
  match lines_info with
  | [] => (pool, [])
  | line_data :: rest =>
      if select (variant line_data) then
        match take pool line_data with
        | inl pool' => allocate select rest pool'
        | inr item =>
            let '(pool', items) := allocate select rest pool in
            (pool', item :: items)
        end
      else allocate select rest pool
  end.

Definition raised (items : list InsufficientStockData)
    : option (list InsufficientStockData) :=
  match items with
  | [] => None
  | _ => Some items
  end.

Definition shop_allocate_stocks
    (lines_info : list OrderLineInfo) (country channel_slug : string)
    (manager : unit) (check_reservations : bool) (s : Pools)
    : Pools * option (list InsufficientStockData) :=
  let '(pool, items) := allocate track_inventory lines_info (warehouse_pool s) in
  (mkPools pool (preorder_pool s), raised items).

Definition shop_allocate_preorders
    (lines_info : list OrderLineInfo) (channel_slug : string)
    (check_reservations : bool) (s : Pools)
    : Pools * option (list InsufficientStockData) :=
  let '(pool, items) :=
    allocate is_preorder_active lines_info (preorder_pool s) in
  (mkPools (warehouse_pool s) pool, raised items).

Definition shop_errors (items : list InsufficientStockData) : list ErrorItem :=
  map (fun item =>
         mkErrorItem "Insufficient product stock." INSUFFICIENT_STOCK
           (match short_order_line item with
            | Some l => [line_pk l]
            | None => []
            end)) items.

(** Draft validation here refuses an order without lines, and one that
    requires shipping and has no shipping address. *)
Definition shop_validate_draft_order
    (d : Db) (order : Order) (country : string) (manager : unit)
    : option Exception :=
  match lines order, is_shipping_required order, shipping_address order with
  | [], _, _ =>
      Some (ValidationError
              [("lines",
                [mkErrorItem "Could not create order without any products."
                   (OtherCode "required") []])])
  | _, true, None =>
      Some (ValidationError
              [("shipping",
                [mkErrorItem "Can not finalize draft with no shipping address."
                   (OtherCode "order_no_shipping_address") []])])
  | _, _, _ => None
  end.

#[global] Instance collaborators : Collaborators := {|
  node_error := fun id =>
    ValidationError
      [("id", [mkErrorItem "Could not resolve to a node."
                 (OtherCode "not_found") []])];
  get_order_country := fun order =>
    match shipping_address order with
    | Some a => country_code a
    | None => "US"
    end;
  validate_draft_order := shop_validate_draft_order;
  prepare_order_search_document_value := fun d order => user_email order;
  is_reservation_enabled := fun settings => settings;
  allocate_stocks := shop_allocate_stocks;
  allocate_preorders := shop_allocate_preorders;
  prepare_insufficient_stock_order_validation_errors := shop_errors;
  get_customer_email := fun order =>
    match user order with
    | Some u => email u
    | None => user_email order
    end;
  get_last_payment := fun d order => None
|}.

(** Variants: two tracked ones that are short of stock, one that needs no
    allocation, one on preorder, one tracked and in stock, and one that is
    tracked, in stock and on preorder without preorder capacity. *)
Definition shirt : ProductVariant := mkVariant 1 true false.
Definition mug : ProductVariant := mkVariant 2 true false.
Definition ebook : ProductVariant := mkVariant 3 false false.
Definition console : ProductVariant := mkVariant 4 false true.
Definition poster : ProductVariant := mkVariant 5 true false.
Definition lamp : ProductVariant := mkVariant 6 true true.

Definition shirt_line : OrderLine := mkOrderLine 11 shirt 5.
Definition mug_line : OrderLine := mkOrderLine 12 mug 4.
Definition ebook_line : OrderLine := mkOrderLine 13 ebook 1.
Definition console_line : OrderLine := mkOrderLine 14 console 2.
Definition poster_line : OrderLine := mkOrderLine 15 poster 1.
Definition lamp_line : OrderLine := mkOrderLine 16 lamp 1.

Definition ann : User := mkUser 7 "ann@example.com".
Definition home : Address := mkAddress 31 "PL".
Definition price : TaxedMoney := mkTaxedMoney (mkMoney 10 "USD") (mkMoney 12 "USD").

(** Order 1: a draft with two lines that cannot be allocated.
    Order 2: already unfulfilled.
    Order 3: a draft without lines, which draft validation refuses.
    Order 4: a draft that completes; it needs no shipping and still has a
    shipping method and address.
    Order 5: a draft whose line is in stock, which draft validation
    refuses for want of a shipping address. *)
Definition order1 : Order :=
  mkOrder DRAFT None "ann@example.com" "USD" true (Some "DHL") price
    (Some home) "" (mkChannel "default") [shirt_line; mug_line; ebook_line].

Definition order2 : Order :=
  mkOrder UNFULFILLED (Some ann) "ann@example.com" "USD" true (Some "DHL")
    price (Some home) "" (mkChannel "default") [poster_line].

Definition order3 : Order :=
  mkOrder DRAFT None "" "USD" false (Some "DHL") price None ""
    (mkChannel "default") [].

Definition order4 : Order :=
  mkOrder DRAFT None "bob@example.com" "USD" false (Some "DHL") price
    (Some home) "" (mkChannel "default")
    [ebook_line; console_line; poster_line].

Definition order5 : Order :=
  mkOrder DRAFT None "" "USD" true (Some "DHL") price None ""
    (mkChannel "default") [poster_line].

Definition pools : Pools :=
  mkPools (list_to_map [(1%nat, 2); (2%nat, 1); (5%nat, 5); (6%nat, 3)])
          (list_to_map [(4%nat, 10)]).

Definition rows : Db :=
  mkDb (list_to_map [(1%nat, order1); (2%nat, order2); (3%nat, order3);
                     (4%nat, order4); (5%nat, order5)])
       (list_to_map [(31%nat, home)])
       (list_to_map [("ann@example.com", ann)])
       pools.

Definition world : World := mkWorld rows [].

Definition request : Info := mkInfo tt true None None.

(** A second world: the same rows, one more address, and order 6, a draft
    whose first line is in stock and whose second line is not. *)
Definition office : Address := mkAddress 32 "DE".

Definition order6 : Order :=
  mkOrder DRAFT (Some ann) "old@example.com" "USD" true (Some "DHL") price
    (Some home) "" (mkChannel "default") [poster_line; shirt_line].

Definition rows2 : Db :=
  mkDb (<[6%nat := order6]> (order_rows rows))
       (<[32%nat := office]> (address_rows rows))
       (user_rows rows)
       pools.

Definition world2 : World := mkWorld rows2 [].

(** A third world: order 7, a draft with the lamp line alone, and preorder
    capacity for the lamp. *)
Definition order7 : Order :=
  mkOrder DRAFT None "" "USD" false None price None ""
    (mkChannel "default") [lamp_line].

Definition pools3 : Pools :=
  mkPools (warehouse_pool pools) (<[6%nat := 4]> (preorder_pool pools)).

Definition rows3 : Db :=
  mkDb (<[7%nat := order7]> (order_rows rows))
       (address_rows rows) (user_rows rows) pools3.

Definition world3 : World := mkWorld rows3 [].

End Shop.

(* ===================================================================== *)
(** ** Properties *)
(* ===================================================================== *)

(** Unfold the record updates of the world and compute the projections. *)
Ltac world_simpl := unfold set_db, emit, set_stock in *; cbn in *.

Section Properties.
Context `{Collaborators}.

(** *** Running the monad *)

Lemma bind_returned {A B : Type} (m : M A) (k : A -> M B) w w' a :
  m w = (w', Returned a) -> bind m k w = k a w'.
Proof. intros Hm. unfold bind. now rewrite Hm. Qed.

Lemma bind_raised {A B : Type} (m : M A) (k : A -> M B) w w' e :
  m w = (w', Raised e) -> bind m k w = (w', Raised e).
Proof. intros Hm. unfold bind. now rewrite Hm. Qed.

Lemma world_eta (w : World) : mkWorld (db w) (log w) = w.
Proof. now destruct w. Qed.

Lemma db_eta (d : Db) :
  mkDb (order_rows d) (address_rows d) (user_rows d) (stock d) = d.
Proof. now destruct d. Qed.

(** *** One line *)

(** Both allocators return: the line's writes stay and both calls are in
    the log. *)
Lemma allocate_line_returns info country channel_slug line_data w s' :
  line_allocation info country channel_slug line_data (stock (db w)) = inl s' ->
  allocate_line info country channel_slug (plugins info) line_data w =
    (mkWorld (set_stock s' (db w))
       (log w ++ line_calls info country channel_slug line_data),
     Returned tt).
Proof.
  unfold line_allocation, allocate_line, except_InsufficientStock,
    traced_atomic_transaction, bind, call_allocate_stocks,
    call_allocate_preorders, run_allocator, line_calls.
  cbn.
  destruct (allocate_stocks _ _ _ _ _ _) as [s1 [items1|]]; [discriminate|].
  cbn.
  destruct (allocate_preorders _ _ _ _) as [s2 [items2|]]; [discriminate|].
  intros [= <-]. world_simpl. now rewrite <- app_assoc.
Qed.

(** One of the allocators raises: the database is as before the line, and
    the exception leaves as a [ValidationError] on "lines". *)
Lemma allocate_line_raises info country channel_slug line_data w items :
  line_allocation info country channel_slug line_data (stock (db w))
    = inr items ->
  allocate_line info country channel_slug (plugins info) line_data w =
    (mkWorld (db w)
       (log w ++
        failed_line_calls info country channel_slug line_data (stock (db w))),
     Raised (ValidationError
               [("lines",
                 prepare_insufficient_stock_order_validation_errors items)])).
Proof.
  unfold line_allocation, failed_line_calls, allocate_line,
    except_InsufficientStock, traced_atomic_transaction, bind,
    call_allocate_stocks, call_allocate_preorders, run_allocator, line_calls,
    raise.
  cbn.
  destruct (allocate_stocks _ _ _ _ _ _) as [s1 [items1|]]; cbn.
  - intros [= <-]. now world_simpl.
  - destruct (allocate_preorders _ _ _ _) as [s2 [items2|]]; [|discriminate].
    intros [= <-]. world_simpl. now rewrite <- app_assoc.
Qed.

(** *** The loop *)

Lemma lines_allocation_app info country channel_slug done rest s s1 :
  lines_allocation info country channel_slug done s = inl s1 ->
  lines_allocation info country channel_slug (done ++ rest) s =
  lines_allocation info country channel_slug rest s1.
Proof.
  revert s. induction done as [|d done IH]; intros s; cbn.
  - now intros [= ->].
  - destruct (line_allocation _ _ _ d s) as [s2|items]; [|discriminate].
    apply IH.
Qed.

(** A list of lines that does not allocate has a first line that raises. *)
Lemma lines_allocation_first_short info country channel_slug lines_info s items :
  lines_allocation info country channel_slug lines_info s = inr items ->
  exists done line_data pending s1,
    lines_info = done ++ line_data :: pending /\
    lines_allocation info country channel_slug done s = inl s1 /\
    line_allocation info country channel_slug line_data s1 = inr items.
Proof.
  revert s. induction lines_info as [|d rest IH]; intros s; cbn; [discriminate|].
  destruct (line_allocation _ _ _ d s) as [s2|items'] eqn:Hd.
  - intros Hrest. destruct (IH _ Hrest) as (done & ld & pending & s1 & -> & Hdone & Hld).
    exists (d :: done), ld, pending, s1. cbn. rewrite Hd. auto.
  - intros [= ->]. exists [], d, rest, s. auto.
Qed.

(** Every line allocates: the loop returns the lines it handed over, the
    stock rows are those the allocators left, and each line shows in the
    log with its two calls. *)
Lemma allocate_order_lines_returns info country channel_slug order_lines :
  forall acc w s',
  lines_allocation info country channel_slug
    (map order_line_info (List.filter needs_allocation order_lines))
    (stock (db w)) = inl s' ->
  allocate_order_lines info country channel_slug (plugins info)
    order_lines acc w =
    (mkWorld (set_stock s' (db w))
       (log w ++
        flat_map (line_calls info country channel_slug)
          (map order_line_info (List.filter needs_allocation order_lines))),
     Returned
       (acc ++ map order_line_info (List.filter needs_allocation order_lines))).
Proof.
  induction order_lines as [|l rest IH]; intros acc w s'; cbn.
  - intros [= <-]. unfold ret, set_stock.
    now rewrite db_eta, !app_nil_r, world_eta.
  - fold (needs_allocation l).
    destruct (needs_allocation l); [|apply IH]. cbn.
    destruct (line_allocation _ _ _ (order_line_info l) (stock (db w)))
      as [s1|items] eqn:Hl; [|discriminate].
    intros Hrest.
    rewrite (bind_returned _ _ _ _ _
               (allocate_line_returns _ _ _ _ _ _ Hl)).
    rewrite (IH _ _ s') by exact Hrest.
    world_simpl. now rewrite <- !app_assoc.
Qed.

(** Some line raises: the loop stops there.  The stock rows are those the
    lines before it left, the lines after it are not in the log, and the
    error is the one built from that line's exception. *)
Lemma allocate_order_lines_raises info country channel_slug order_lines :
  forall acc w done line_data pending s items,
  map order_line_info (List.filter needs_allocation order_lines) =
    done ++ line_data :: pending ->
  lines_allocation info country channel_slug done (stock (db w)) = inl s ->
  line_allocation info country channel_slug line_data s = inr items ->
  allocate_order_lines info country channel_slug (plugins info)
    order_lines acc w =
    (mkWorld (set_stock s (db w))
       (log w ++
        flat_map (line_calls info country channel_slug) done ++
        failed_line_calls info country channel_slug line_data s),
     Raised (ValidationError
               [("lines",
                 prepare_insufficient_stock_order_validation_errors items)])).
Proof.
  induction order_lines as [|l rest IH];
    intros acc w done ld pending s items; cbn.
  - intros Hsplit. now destruct done.
  - fold (needs_allocation l).
    destruct (needs_allocation l); [|apply IH]. cbn.
    destruct done as [|d done]; cbn.
    + intros [= <- Hpending] [= <-] Hld.
      rewrite (bind_raised _ _ _ _ _ (allocate_line_raises _ _ _ _ _ _ Hld)).
      unfold set_stock. now rewrite db_eta.
    + intros [= <- Hsplit].
      destruct (line_allocation _ _ _ (order_line_info l) (stock (db w)))
        as [s1|items1] eqn:Hl; [|discriminate].
      intros Hdone Hld.
      rewrite (bind_returned _ _ _ _ _
                 (allocate_line_returns _ _ _ _ _ _ Hl)).
      rewrite (IH _ _ done ld pending s items Hsplit) by assumption.
      world_simpl. now rewrite <- !app_assoc.
Qed.

(** *** The steps before the loop *)

Lemma update_user_fields_returns order w :
  exists u e,
    update_user_fields order w =
      (w, Returned (set_user_email e (set_user u order))).
Proof.
  unfold update_user_fields.
  destruct (user order) as [u|] eqn:Hu.
  - exists (Some u), (email u). unfold ret.
    destruct order; cbn in *. now subst.
  - destruct (truthy (user_email order)).
    + unfold except_DoesNotExist, bind, User_objects_get, ret.
      destruct (user_rows (db w) !! user_email order) as [u|].
      * exists (Some u), (user_email order). now destruct order.
      * exists None, (user_email order). now destruct order.
    + exists None, (user_email order). unfold ret.
      destruct order; cbn in *. now subst.
Qed.

Lemma normalize_shipping_returns order w :
  exists order' gone,
    normalize_shipping order w =
      (mkWorld (mkDb (detach_addresses gone (order_rows (db w)))
                     (delete_addresses gone (address_rows (db w)))
                     (user_rows (db w)) (stock (db w)))
               (log w ++ map DeleteAddress gone),
       Returned order') /\
    status order' = status order /\
    lines order' = lines order /\
    channel order' = channel order /\
    currency order' = currency order /\
    shipping_normalized order order' gone.
Proof.
  unfold normalize_shipping, shipping_normalized.
  destruct (is_shipping_required order) eqn:Hreq; cbn.
  - exists order, []. unfold ret. cbn.
    now rewrite db_eta, app_nil_r, world_eta.
  - destruct (shipping_address order) as [a|] eqn:Ha.
    + eexists _, [a]. split; [reflexivity|]. now cbn.
    + eexists _, []. unfold ret. cbn.
      rewrite db_eta, app_nil_r, world_eta. split; [reflexivity|].
      now cbn.
Qed.

Lemma bind_gets {A B : Type} (f : World -> A) (k : A -> M B) w :
  bind (gets f) k w = k (f w) w.
Proof. reflexivity. Qed.

Lemma bind_modify {B : Type} (f : World -> World) (k : unit -> M B) w :
  bind (modify f) k w = k tt (f w).
Proof. reflexivity. Qed.

(** An order that is not a draft stops the mutation at [validate_order],
    with the world untouched. *)
Lemma validate_order_stops info id w order :
  order_rows (db w) !! id = Some order ->
  status order <> DRAFT ->
  perform_mutation info id w =
    (w, Raised (ValidationError
                  [("id", [mkErrorItem "The order is not draft." INVALID []])])).
Proof.
  intros Hrow Hstatus. unfold perform_mutation.
  rewrite (bind_returned _ _ w w order)
    by (unfold get_node_or_error; now rewrite Hrow).
  apply bind_raised. unfold validate_order, is_draft.
  now rewrite bool_decide_eq_false_2.
Qed.

(** A draft order that passes draft validation is saved, and the mutation
    goes on with the loop from the world in which it is saved. *)
Lemma perform_mutation_draft info id w order :
  order_rows (db w) !! id = Some order ->
  is_draft order = true ->
  validate_draft_order (db w) order (get_order_country order) (plugins info)
    = None ->
  exists order' gone,
    saved_as order order' gone /\
    perform_mutation info id w =
      (order_lines_info <-
         allocate_order_lines info (get_order_country order)
           (slug (channel order')) (plugins info) (lines order') [] ;;
       payment <- gets (fun w => get_last_payment (db w) order') ;;
       order_created
         (mkOrderInfo order' (get_customer_email order') (channel order')
            payment order_lines_info)
         (context_user info) (context_app info) (plugins info) true ;;;
       ret order')
      (mkWorld (completed_db id order' gone (stock (db w)) (db w))
         (log w ++ map DeleteAddress gone ++ [SaveOrder id order'])).
Proof.
  intros Hrow Hdraft Hvalid. unfold perform_mutation.
  rewrite (bind_returned _ _ w w order)
    by (unfold get_node_or_error; now rewrite Hrow).
  rewrite (bind_returned _ _ w w tt)
    by (unfold validate_order; now rewrite Hdraft).
  rewrite (bind_returned _ _ w w tt)
    by (unfold call_validate_draft_order; now rewrite Hvalid).
  destruct (update_user_fields_returns order w) as (u & e & Hu).
  rewrite (bind_returned _ _ _ _ _ Hu).
  destruct (normalize_shipping_returns
              (set_status UNFULFILLED (set_user_email e (set_user u order))) w)
    as (o' & gone & Hn & Hstatus & Hlines & Hchannel & Hcurrency & Hship).
  rewrite (bind_returned _ _ _ _ _ Hn).
  rewrite bind_gets. unfold Order_save. rewrite bind_modify.
  exists (set_search_document
            (prepare_order_search_document_value
               (mkDb (detach_addresses gone (order_rows (db w)))
                     (delete_addresses gone (address_rows (db w)))
                     (user_rows (db w)) (stock (db w))) o') o'), gone.
  split.
  - unfold saved_as, shipping_normalized in *. cbn in *. auto.
  - unfold completed_db. world_simpl. now rewrite <- app_assoc.
Qed.

(** *** The whole mutation on a draft order that passes validation *)

(** Either every line that needs allocation allocates, the event is
    emitted and the order is returned; or the first line that does not
    allocate ends the mutation with its error. *)
Lemma perform_mutation_runs info id w order :
  order_rows (db w) !! id = Some order ->
  is_draft order = true ->
  validate_draft_order (db w) order (get_order_country order) (plugins info)
    = None ->
  exists order' gone,
    saved_as order order' gone /\
    match lines_allocation info (get_order_country order)
            (slug (channel order)) (allocated_lines order) (stock (db w)) with
    | inl s' =>
        perform_mutation info id w =
          (mkWorld (completed_db id order' gone s' (db w))
             (log w ++ map DeleteAddress gone ++ [SaveOrder id order'] ++
              flat_map (line_calls info (get_order_country order)
                          (slug (channel order)))
                (allocated_lines order) ++
              [OrderCreated
                 (mkOrderInfo order' (get_customer_email order')
                    (channel order')
                    (get_last_payment
                       (completed_db id order' gone s' (db w)) order')
                    (allocated_lines order))
                 (context_user info) (context_app info) (plugins info) true]),
           Returned order')
    | inr items =>
        exists done line_data pending s,
          allocated_lines order = done ++ line_data :: pending /\
          lines_allocation info (get_order_country order)
            (slug (channel order)) done (stock (db w)) = inl s /\
          line_allocation info (get_order_country order)
            (slug (channel order)) line_data s = inr items /\
          perform_mutation info id w =
            (mkWorld (completed_db id order' gone s (db w))
               (log w ++ map DeleteAddress gone ++ [SaveOrder id order'] ++
                flat_map (line_calls info (get_order_country order)
                            (slug (channel order))) done ++
                failed_line_calls info (get_order_country order)
                  (slug (channel order)) line_data s),
             Raised (ValidationError
                       [("lines",
                         prepare_insufficient_stock_order_validation_errors
                           items)]))
    end.
Proof.
  intros Hrow Hdraft Hvalid.
  destruct (perform_mutation_draft info id w order Hrow Hdraft Hvalid)
    as (order' & gone & Hsaved & Hrun).
  exists order', gone. split; [exact Hsaved|].
  destruct Hsaved as (_ & Hlines & Hchannel & _).
  rewrite Hrun, Hlines. clear Hrun. unfold allocated_lines.
  set (w1 := mkWorld (completed_db id order' gone (stock (db w)) (db w))
               (log w ++ map DeleteAddress gone ++ [SaveOrder id order'])).
  destruct (lines_allocation _ _ _ _ _) as [s'|items] eqn:Halloc.
  - rewrite (bind_returned _ _ _ _ _
               (allocate_order_lines_returns info (get_order_country order)
                  (slug (channel order')) (lines order) [] w1 s'
                  ltac:(rewrite Hchannel; exact Halloc))).
    rewrite bind_gets. unfold order_created. rewrite bind_modify.
    unfold ret, completed_db, w1. world_simpl.
    rewrite Hchannel, <- !app_assoc. reflexivity.
  - destruct (lines_allocation_first_short _ _ _ _ _ _ Halloc)
      as (done & ld & pending & s & Hsplit & Hdone & Hld).
    exists done, ld, pending, s. repeat split; try assumption.
    rewrite (bind_raised _ _ _ _ _
               (allocate_order_lines_raises info (get_order_country order)
                  (slug (channel order')) (lines order) [] w1
                  done ld pending s items Hsplit
                  ltac:(rewrite Hchannel; exact Hdone)
                  ltac:(rewrite Hchannel; exact Hld))).
    unfold completed_db, w1. world_simpl.
    rewrite Hchannel, <- !app_assoc. reflexivity.
Qed.

(** The same, from the first line that raises. *)
Lemma perform_mutation_raises info id w order done line_data pending s items :
  order_rows (db w) !! id = Some order ->
  is_draft order = true ->
  validate_draft_order (db w) order (get_order_country order) (plugins info)
    = None ->
  allocated_lines order = done ++ line_data :: pending ->
  lines_allocation info (get_order_country order) (slug (channel order))
    done (stock (db w)) = inl s ->
  line_allocation info (get_order_country order) (slug (channel order))
    line_data s = inr items ->
  exists order' gone,
    saved_as order order' gone /\
    perform_mutation info id w =
      (mkWorld (completed_db id order' gone s (db w))
         (log w ++ map DeleteAddress gone ++ [SaveOrder id order'] ++
          flat_map (line_calls info (get_order_country order)
                      (slug (channel order))) done ++
          failed_line_calls info (get_order_country order)
            (slug (channel order)) line_data s),
       Raised (ValidationError
                 [("lines",
                   prepare_insufficient_stock_order_validation_errors
                     items)])).
Proof.
  intros Hrow Hdraft Hvalid Hsplit Hdone Hld.
  destruct (perform_mutation_draft info id w order Hrow Hdraft Hvalid)
    as (order' & gone & Hsaved & Hrun).
  exists order', gone. split; [exact Hsaved|].
  destruct Hsaved as (_ & Hlines & Hchannel & _).
  rewrite Hrun, Hlines. clear Hrun.
  set (w1 := mkWorld (completed_db id order' gone (stock (db w)) (db w))
               (log w ++ map DeleteAddress gone ++ [SaveOrder id order'])).
  rewrite (bind_raised _ _ _ _ _
             (allocate_order_lines_raises info (get_order_country order)
                (slug (channel order')) (lines order) [] w1
                done line_data pending s items Hsplit
                ltac:(rewrite Hchannel; exact Hdone)
                ltac:(rewrite Hchannel; exact Hld))).
  unfold completed_db, w1. world_simpl.
  rewrite Hchannel, <- !app_assoc. reflexivity.
Qed.

(** An order that is missing, not a draft, or refused by draft validation
    ends the mutation with the world untouched. *)
Lemma perform_mutation_stops info id w :
  match order_rows (db w) !! id with
  | None => True
  | Some order =>
      is_draft order = false \/
      validate_draft_order (db w) order (get_order_country order)
        (plugins info) <> None
  end ->
  exists e, perform_mutation info id w = (w, Raised e).
Proof.
  unfold perform_mutation, get_node_or_error, validate_order,
    call_validate_draft_order, bind, raise, ret.
  destruct (order_rows (db w) !! id) as [order|]; [|eauto].
  destruct (is_draft order); cbn; [|eauto].
  destruct (validate_draft_order _ _ _ _) as [e|]; [eauto|].
  intros [?|?]; congruence.
Qed.

(** *** What the log of a run contains *)

Lemma stock_calls_app l1 l2 :
  stock_calls (l1 ++ l2) = stock_calls l1 ++ stock_calls l2.
Proof. apply flat_map_app. Qed.

Lemma preorder_calls_app l1 l2 :
  preorder_calls (l1 ++ l2) = preorder_calls l1 ++ preorder_calls l2.
Proof. apply flat_map_app. Qed.

Lemma stock_calls_deleted gone : stock_calls (map DeleteAddress gone) = [].
Proof. now induction gone. Qed.

Lemma preorder_calls_deleted gone : preorder_calls (map DeleteAddress gone) = [].
Proof. now induction gone. Qed.

Lemma stock_calls_saved pk order l :
  stock_calls (SaveOrder pk order :: l) = stock_calls l.
Proof. reflexivity. Qed.

Lemma preorder_calls_saved pk order l :
  preorder_calls (SaveOrder pk order :: l) = preorder_calls l.
Proof. reflexivity. Qed.

Lemma stock_calls_lines info country channel_slug lines_info :
  stock_calls (flat_map (line_calls info country channel_slug) lines_info)
    = lines_info.
Proof.
  induction lines_info as [|d rest IH]; [reflexivity|].
  cbn. f_equal. exact IH.
Qed.

Lemma preorder_calls_lines info country channel_slug lines_info :
  preorder_calls (flat_map (line_calls info country channel_slug) lines_info)
    = lines_info.
Proof.
  induction lines_info as [|d rest IH]; [reflexivity|].
  cbn. f_equal. exact IH.
Qed.

Lemma stock_calls_failed info country channel_slug line_data s :
  stock_calls (failed_line_calls info country channel_slug line_data s)
    = [line_data].
Proof.
  unfold failed_line_calls.
  now destruct (allocate_stocks _ _ _ _ _ _) as [? [?|]].
Qed.

Lemma preorder_calls_failed info country channel_slug line_data s :
  preorder_calls (failed_line_calls info country channel_slug line_data s) = []
  \/ preorder_calls (failed_line_calls info country channel_slug line_data s)
      = [line_data].
Proof.
  unfold failed_line_calls.
  destruct (allocate_stocks _ _ _ _ _ _) as [? [?|]]; cbn; auto.
Qed.

Lemma allocated_lines_need_allocation order line_data :
  In line_data (allocated_lines order) ->
  needs_allocation (line line_data) = true.
Proof.
  unfold allocated_lines. rewrite in_map_iff.
  intros (l & <- & Hl). now apply filter_In in Hl.
Qed.

(** *** The claims *)

(** C2. Completing an order that is not in Draft status (one already moved
    to Unfulfilled included) fails with the invalid-state error on the id
    field and changes nothing: the world after the run is the world before
    it, so no row of the order, of the addresses or of the stock is
    written, and nothing, no allocation call and no completion event, is
    added to the log. *)
Theorem not_draft_is_rejected info id w order :
  order_rows (db w) !! id = Some order ->
  status order <> DRAFT ->
  perform_mutation info id w =
    (w, Raised (ValidationError
                  [("id", [mkErrorItem "The order is not draft." INVALID []])])).
Proof. apply validate_order_stops. Qed.

(** X2. Completion is not repeatable: once a draft order that passes draft
    validation went through completion, whether its lines allocated or
    not, a second completion is refused as not draft and changes
    nothing. *)
Corollary second_completion_is_rejected info info' id w order :
  order_rows (db w) !! id = Some order ->
  is_draft order = true ->
  validate_draft_order (db w) order (get_order_country order) (plugins info)
    = None ->
  perform_mutation info' id (perform_mutation info id w).1 =
    ((perform_mutation info id w).1,
     Raised (ValidationError
               [("id", [mkErrorItem "The order is not draft." INVALID []])])).
Proof.
  intros Hrow Hdraft Hvalid.
  destruct (perform_mutation_runs info id w order Hrow Hdraft Hvalid)
    as (order' & gone & (Hstatus & _) & Hrun).
  apply (validate_order_stops info' id _ order');
    [|rewrite Hstatus; discriminate].
  destruct (lines_allocation _ _ _ _ _) as [s'|items].
  - rewrite Hrun. apply lookup_insert_eq.
  - destruct Hrun as (? & ? & ? & ? & _ & _ & _ & Hrun).
    rewrite Hrun. apply lookup_insert_eq.
Qed.

(** C10. Resolving the customer never raises and writes nothing.  With a
    user attached, the order's email becomes that user's email.  With no
    user and an email, the user becomes the row with that email when there
    is one and None when there is none, the failed lookup being caught.
    Nothing but the user and the email of the order changes. *)
Theorem update_user_fields_never_raises order w :
  exists order',
    update_user_fields order w = (w, Returned order') /\
    order' = set_user_email (user_email order') (set_user (user order') order) /\
    match user order with
    | Some u => user order' = Some u /\ user_email order' = email u
    | None =>
        user_email order' = user_email order /\
        user order' =
          if truthy (user_email order)
          then user_rows (db w) !! user_email order
          else None
    end.
Proof.
  unfold update_user_fields.
  destruct (user order) as [u|] eqn:Hu.
  - eexists. split; [reflexivity|]. cbn.
    split; [now destruct order | auto].
  - destruct (truthy (user_email order)).
    + unfold except_DoesNotExist, bind, User_objects_get, ret.
      destruct (user_rows (db w) !! user_email order) as [u|];
        (eexists; split; [reflexivity|]); cbn; now destruct order.
    + eexists. split; [reflexivity|]. cbn.
      rewrite Hu. now destruct order; cbn in *; subst.
Qed.

(** C4. The allocation of one line is all or nothing.  Either both
    allocators return, and the database is the one before the line with the
    stock rows they left; or one of them raises InsufficientStock, and the
    database is exactly the one before the line, whatever the allocators
    had written by then, the error leaving as a ValidationError on
    "lines". *)
Theorem line_allocation_is_atomic info country channel_slug line_data w :
  exists w' r,
    allocate_line info country channel_slug (plugins info) line_data w
      = (w', r) /\
    ((exists s1 s2,
        allocate_stocks [line_data] country channel_slug (plugins info)
          (is_reservation_enabled (site_settings info)) (stock (db w))
          = (s1, None) /\
        allocate_preorders [line_data] channel_slug
          (is_reservation_enabled (site_settings info)) s1 = (s2, None) /\
        r = Returned tt /\
        db w' = set_stock s2 (db w))
     \/
     (exists items,
        line_allocation info country channel_slug line_data (stock (db w))
          = inr items /\
        r = Raised (ValidationError
                      [("lines",
                        prepare_insufficient_stock_order_validation_errors
                          items)]) /\
        db w' = db w)).
Proof.
  destruct (line_allocation info country channel_slug line_data (stock (db w)))
    as [s'|items] eqn:Hl.
  - rewrite (allocate_line_returns _ _ _ _ _ _ Hl).
    eexists _, _. split; [reflexivity|]. left.
    unfold line_allocation in Hl.
    destruct (allocate_stocks _ _ _ _ _ _) as [s1 [?|]]; [discriminate|].
    destruct (allocate_preorders _ _ _ _) as [s2 [?|]] eqn:Hp; [discriminate|].
    injection Hl as <-. exists s1, s2. auto.
  - rewrite (allocate_line_raises _ _ _ _ _ _ Hl).
    eexists _, _. split; [reflexivity|]. right. exists items. auto.
Qed.

Lemma deleted_not_allocation gone :
  Forall (fun e => is_allocation e = false) (map DeleteAddress gone).
Proof. induction gone; constructor; auto. Qed.

(** C6. On a draft order that passes validation the order is saved as
    Unfulfilled before any line is allocated: what the run adds to the log
    splits around the save of the order, no allocator call comes before
    it, and the saved row has status Unfulfilled and is the row of the
    order when the run ends. *)
Theorem order_saved_before_allocation info id w order :
  order_rows (db w) !! id = Some order ->
  is_draft order = true ->
  validate_draft_order (db w) order (get_order_country order) (plugins info)
    = None ->
  exists order' before after,
    log (perform_mutation info id w).1 =
      log w ++ before ++ SaveOrder id order' :: after /\
    Forall (fun e => is_allocation e = false) before /\
    status order' = UNFULFILLED /\
    order_rows (db (perform_mutation info id w).1) !! id = Some order'.
Proof.
  intros Hrow Hdraft Hvalid.
  destruct (perform_mutation_runs info id w order Hrow Hdraft Hvalid)
    as (order' & gone & (Hstatus & _) & Hrun).
  exists order', (map DeleteAddress gone).
  destruct (lines_allocation _ _ _ _ _) as [s'|items].
  - rewrite Hrun. eexists. cbn.
    split; [reflexivity|]. split; [apply deleted_not_allocation|].
    split; [exact Hstatus|]. apply lookup_insert_eq.
  - destruct Hrun as (done & ld & pending & s & _ & _ & _ & Hrun).
    rewrite Hrun. eexists. cbn.
    split; [reflexivity|]. split; [apply deleted_not_allocation|].
    split; [exact Hstatus|]. apply lookup_insert_eq.
Qed.

(** C3. When the completion of a draft order that passed validation ends
    in an exception, a line failed to allocate, and: the row of the order
    is the saved one, with status Unfulfilled and the shipping fields as
    normalization left them, and the address rows deleted on the way stay
    deleted; the lines handed to [allocate_stocks] are those up to and
    including the failing one, so none after it; the lines handed to
    [allocate_preorders] are those before the failing one and at most the
    failing one itself. *)
Theorem shortage_keeps_saved_order info id w order w' e :
  order_rows (db w) !! id = Some order ->
  is_draft order = true ->
  validate_draft_order (db w) order (get_order_country order) (plugins info)
    = None ->
  perform_mutation info id w = (w', Raised e) ->
  exists order' gone done line_data pending,
    order_rows (db w') !! id = Some order' /\
    status order' = UNFULFILLED /\
    shipping_normalized order order' gone /\
    address_rows (db w') = delete_addresses gone (address_rows (db w)) /\
    allocated_lines order = done ++ line_data :: pending /\
    stock_calls (log w') = stock_calls (log w) ++ done ++ [line_data] /\
    (preorder_calls (log w') = preorder_calls (log w) ++ done \/
     preorder_calls (log w') = preorder_calls (log w) ++ done ++ [line_data]).
Proof.
  intros Hrow Hdraft Hvalid Hraised.
  destruct (perform_mutation_runs info id w order Hrow Hdraft Hvalid)
    as (order' & gone & (Hstatus & _ & _ & _ & Hship) & Hrun).
  destruct (lines_allocation _ _ _ _ _) as [s'|items]; [congruence|].
  destruct Hrun as (done & ld & pending & s & Hsplit & _ & _ & Hrun).
  rewrite Hrun in Hraised. injection Hraised as <- _.
  exists order', gone, done, ld, pending.
  unfold completed_db. cbn [db log order_rows address_rows].
  split; [apply lookup_insert_eq|].
  do 4 (split; [assumption || reflexivity|]).
  rewrite !stock_calls_app, !preorder_calls_app, stock_calls_deleted,
    preorder_calls_deleted, stock_calls_saved, preorder_calls_saved,
    !stock_calls_app, !preorder_calls_app, stock_calls_lines,
    preorder_calls_lines, stock_calls_failed.
  split; [reflexivity|].
  destruct (preorder_calls_failed info (get_order_country order)
              (slug (channel order)) ld s) as [-> | ->].
  - left. now rewrite app_nil_r.
  - now right.
Qed.

(** C7, amended.  On a draft order that passes draft validation: if the
    order requires no shipping, the saved order has no shipping method
    name, the zero taxed amount in the order's currency as shipping price
    and no shipping address, and the address it had, if any, is deleted
    from the address rows; if the order requires shipping, the three
    fields and the address rows are as they were. *)
Theorem shipping_is_normalized info id w order :
  order_rows (db w) !! id = Some order ->
  is_draft order = true ->
  validate_draft_order (db w) order (get_order_country order) (plugins info)
    = None ->
  exists order',
    order_rows (db (perform_mutation info id w).1) !! id = Some order' /\
    if is_shipping_required order then
      shipping_method_name order' = shipping_method_name order /\
      shipping_price order' = shipping_price order /\
      shipping_address order' = shipping_address order /\
      address_rows (db (perform_mutation info id w).1) = address_rows (db w)
    else
      shipping_method_name order' = None /\
      shipping_price order' = zero_taxed_money (currency order) /\
      shipping_address order' = None /\
      match shipping_address order with
      | Some a =>
          address_rows (db (perform_mutation info id w).1) =
            delete (address_pk a) (address_rows (db w)) /\
          In (DeleteAddress a) (log (perform_mutation info id w).1)
      | None =>
          address_rows (db (perform_mutation info id w).1) =
            address_rows (db w)
      end.
Proof.
  intros Hrow Hdraft Hvalid.
  destruct (perform_mutation_runs info id w order Hrow Hdraft Hvalid)
    as (order' & gone & (_ & _ & _ & _ & Hship) & Hrun).
  exists order'.
  assert (Hworld :
    order_rows (db (perform_mutation info id w).1) !! id = Some order' /\
    address_rows (db (perform_mutation info id w).1) =
      delete_addresses gone (address_rows (db w)) /\
    forall a, In a gone ->
      In (DeleteAddress a) (log (perform_mutation info id w).1)).
  { assert (Hin : forall a rest, In a gone ->
              In (DeleteAddress a) (log w ++ map DeleteAddress gone ++ rest)).
    { intros a rest Ha. rewrite !in_app_iff. right. left. now apply in_map. }
    destruct (lines_allocation _ _ _ _ _) as [s'|items].
    - rewrite Hrun. cbn. split; [apply lookup_insert_eq|]. split; auto.
    - destruct Hrun as (done & ld & pending & s & _ & _ & _ & Hrun).
      rewrite Hrun. cbn. split; [apply lookup_insert_eq|]. split; auto. }
  destruct Hworld as (Hsaved & Haddr & Hlog). split; [exact Hsaved|].
  unfold shipping_normalized in Hship.
  destruct (is_shipping_required order).
  - destruct Hship as (? & ? & ? & ->). auto.
  - destruct Hship as (? & ? & ? & Hgone). do 3 (split; [assumption|]).
    destruct (shipping_address order) as [a|]; subst gone; cbn in *; auto.
Qed.

Lemma skipped_line_not_among l lines_info :
  needs_allocation l = false ->
  (forall line_data, In line_data lines_info ->
     needs_allocation (line line_data) = true) ->
  ~ In l (map line lines_info).
Proof.
  intros Hl Hneed Hin. apply in_map_iff in Hin as (ld & <- & Hld).
  apply Hneed in Hld. congruence.
Qed.

Lemma skipped_line_not_in_calls info country channel_slug l lines_info :
  needs_allocation l = false ->
  (forall line_data, In line_data lines_info ->
     needs_allocation (line line_data) = true) ->
  Forall (fun e => ~ In l (effect_lines e))
    (flat_map (line_calls info country channel_slug) lines_info).
Proof.
  intros Hl Hneed. apply List.Forall_forall. intros e He.
  apply in_flat_map in He as (ld & Hld & He).
  apply Hneed in Hld.
  destruct He as [<- | [<- | []]]; cbn; intros [<- | []]; congruence.
Qed.

Lemma skipped_line_not_in_failed info country channel_slug l line_data s :
  needs_allocation l = false ->
  needs_allocation (line line_data) = true ->
  Forall (fun e => ~ In l (effect_lines e))
    (failed_line_calls info country channel_slug line_data s).
Proof.
  intros Hl Hneed. unfold failed_line_calls, line_calls.
  destruct (allocate_stocks _ _ _ _ _ _) as [? [?|]];
    repeat constructor; cbn; intros [<- | []]; congruence.
Qed.

Lemma skipped_line_not_in_deleted l gone :
  Forall (fun e => ~ In l (effect_lines e)) (map DeleteAddress gone).
Proof. induction gone; constructor; auto. Qed.

(** C8. A line whose variant neither tracks inventory nor is
    preorder-active is skipped: nothing that a run adds to the log, be it
    a call of an allocator or the completion event with its [lines_data],
    carries that line. *)
Theorem unflagged_line_is_skipped info id w l :
  track_inventory (line_variant l) = false ->
  is_preorder_active (line_variant l) = false ->
  exists new,
    log (perform_mutation info id w).1 = log w ++ new /\
    Forall (fun e => ~ In l (effect_lines e)) new.
Proof.
  intros Htrack Hpreorder.
  assert (Hl : needs_allocation l = false)
    by (unfold needs_allocation; now rewrite Htrack, Hpreorder).
  assert (Hstop :
    (exists e, perform_mutation info id w = (w, Raised e)) ->
    exists new,
      log (perform_mutation info id w).1 = log w ++ new /\
      Forall (fun e => ~ In l (effect_lines e)) new).
  { intros (e & ->). exists []. cbn. now rewrite app_nil_r. }
  destruct (order_rows (db w) !! id) as [order|] eqn:Hrow;
    [|apply Hstop, perform_mutation_stops; now rewrite Hrow].
  destruct (is_draft order) eqn:Hdraft;
    [|apply Hstop, perform_mutation_stops; rewrite Hrow; now left].
  destruct (validate_draft_order (db w) order (get_order_country order)
              (plugins info)) as [e|] eqn:Hvalid;
    [apply Hstop, perform_mutation_stops; rewrite Hrow, Hvalid; now right|].
  clear Hstop.
  destruct (perform_mutation_runs info id w order Hrow Hdraft Hvalid)
    as (order' & gone & _ & Hrun).
  pose proof (allocated_lines_need_allocation order) as Hneed.
  destruct (lines_allocation _ _ _ _ _) as [s'|items].
  - rewrite Hrun. eexists. split; [reflexivity|].
    repeat (apply Forall_app; split).
    + apply skipped_line_not_in_deleted.
    + repeat constructor. cbn. tauto.
    + now apply skipped_line_not_in_calls.
    + repeat constructor. cbn. now apply skipped_line_not_among.
  - destruct Hrun as (done & ld & pending & s & Hsplit & _ & _ & Hrun).
    rewrite Hrun. eexists. split; [reflexivity|].
    rewrite Hsplit in Hneed.
    repeat (apply Forall_app; split).
    + apply skipped_line_not_in_deleted.
    + repeat constructor. cbn. tauto.
    + apply skipped_line_not_in_calls; [assumption|].
      intros d Hd. apply Hneed, in_app_iff. now left.
    + apply skipped_line_not_in_failed; [assumption|].
      apply Hneed, in_app_iff. right. now left.
Qed.

Lemma not_created_in_deleted gone e :
  In e (map DeleteAddress gone) -> is_order_created e = false.
Proof. intros He. now apply in_map_iff in He as (a & <- & _). Qed.

Lemma not_created_in_calls info country channel_slug lines_info e :
  In e (flat_map (line_calls info country channel_slug) lines_info) ->
  is_order_created e = false.
Proof.
  intros He. apply in_flat_map in He as (ld & _ & He).
  now destruct He as [<- | [<- | []]].
Qed.

Lemma not_created_in_failed info country channel_slug line_data s e :
  In e (failed_line_calls info country channel_slug line_data s) ->
  is_order_created e = false.
Proof.
  unfold failed_line_calls, line_calls.
  destruct (allocate_stocks _ _ _ _ _ _) as [? [?|]]; cbn; intuition (now subst).
Qed.

(** C9, amended.  On a draft order that passes draft validation, the run
    adds a completion event to the log if and only if every line that
    needs allocation allocates; and an event it adds carries the saved
    order, that order's customer email, channel and last payment, and the
    lines that were allocated. *)
Theorem event_iff_all_lines_allocated info id w order :
  order_rows (db w) !! id = Some order ->
  is_draft order = true ->
  validate_draft_order (db w) order (get_order_country order) (plugins info)
    = None ->
  exists order' new,
    log (perform_mutation info id w).1 = log w ++ new /\
    order_rows (db (perform_mutation info id w).1) !! id = Some order' /\
    ((exists e, In e new /\ is_order_created e = true) <->
     (exists s',
        lines_allocation info (get_order_country order)
          (slug (channel order)) (allocated_lines order) (stock (db w))
        = inl s')) /\
    (forall e, In e new -> is_order_created e = true ->
       e = OrderCreated
             (mkOrderInfo order' (get_customer_email order') (channel order')
                (get_last_payment (db (perform_mutation info id w).1) order')
                (allocated_lines order))
             (context_user info) (context_app info) (plugins info) true).
Proof.
  intros Hrow Hdraft Hvalid.
  destruct (perform_mutation_runs info id w order Hrow Hdraft Hvalid)
    as (order' & gone & _ & Hrun).
  exists order'.
  destruct (lines_allocation _ _ _ _ _) as [s'|items].
  - rewrite Hrun. eexists. split; [reflexivity|].
    split; [apply lookup_insert_eq|]. split.
    + split; [eauto|]. intros _. eexists.
      split; [rewrite !in_app_iff; do 3 right; now left | reflexivity].
    + intros e He Hcreated. rewrite !in_app_iff in He.
      destruct He as [He | [[<- | []] | [He | [<- | []]]]];
        try discriminate; try reflexivity.
      * apply not_created_in_deleted in He. congruence.
      * apply not_created_in_calls in He. congruence.
  - destruct Hrun as (done & ld & pending & s & _ & _ & _ & Hrun).
    rewrite Hrun. eexists. split; [reflexivity|].
    split; [apply lookup_insert_eq|].
    assert (Hnone : forall e,
      In e (map DeleteAddress gone ++ [SaveOrder id order'] ++
            flat_map (line_calls info (get_order_country order)
                        (slug (channel order))) done ++
            failed_line_calls info (get_order_country order)
              (slug (channel order)) ld s) ->
      is_order_created e = false).
    { intros e He. rewrite !in_app_iff in He.
      destruct He as [He | [[<- | []] | [He | He]]]; [|reflexivity| |].
      - now apply not_created_in_deleted in He.
      - now apply not_created_in_calls in He.
      - now apply not_created_in_failed in He. }
    split.
    + split; [|intros (? & [=])].
      intros (e & He & Hcreated). apply Hnone in He. congruence.
    + intros e He Hcreated. apply Hnone in He. congruence.
Qed.

(** C1, amended.  On a draft order that passes draft validation, if the
    lines before some line allocate and that line does not, completion
    fails with the ValidationError built from that line's InsufficientStock
    alone, whatever the lines after it would do, and no allocator is
    called for a later line: [allocate_stocks] is called for the lines up
    to and including that one, [allocate_preorders] for the lines before
    it and at most for that one. *)
Theorem first_shortage_is_reported
    info id w order done line_data pending s items :
  order_rows (db w) !! id = Some order ->
  is_draft order = true ->
  validate_draft_order (db w) order (get_order_country order) (plugins info)
    = None ->
  allocated_lines order = done ++ line_data :: pending ->
  lines_allocation info (get_order_country order) (slug (channel order))
    done (stock (db w)) = inl s ->
  line_allocation info (get_order_country order) (slug (channel order))
    line_data s = inr items ->
  (perform_mutation info id w).2 =
    Raised (ValidationError
              [("lines",
                prepare_insufficient_stock_order_validation_errors items)]) /\
  stock_calls (log (perform_mutation info id w).1) =
    stock_calls (log w) ++ done ++ [line_data] /\
  (preorder_calls (log (perform_mutation info id w).1) =
     preorder_calls (log w) ++ done \/
   preorder_calls (log (perform_mutation info id w).1) =
     preorder_calls (log w) ++ done ++ [line_data]).
Proof.
  intros Hrow Hdraft Hvalid Hsplit Hdone Hld.
  destruct (perform_mutation_raises info id w order done line_data pending s
              items Hrow Hdraft Hvalid Hsplit Hdone Hld)
    as (order' & gone & _ & ->).
  split; [reflexivity|]. cbn [fst log].
  rewrite !stock_calls_app, !preorder_calls_app, stock_calls_deleted,
    preorder_calls_deleted, stock_calls_lines, preorder_calls_lines,
    stock_calls_failed.
  split; [reflexivity|].
  destruct (preorder_calls_failed info (get_order_country order)
              (slug (channel order)) line_data s) as [-> | ->].
  - left. now rewrite app_nil_r.
  - now right.
Qed.

Lemma allocations_of_deleted gone :
  List.filter is_allocation (map DeleteAddress gone) = [].
Proof. now induction gone. Qed.

Lemma allocations_of_saved pk order l :
  List.filter is_allocation (SaveOrder pk order :: l) =
  List.filter is_allocation l.
Proof. reflexivity. Qed.

Lemma allocations_of_calls info country channel_slug lines_info :
  List.filter is_allocation
    (flat_map (line_calls info country channel_slug) lines_info) =
  flat_map (line_calls info country channel_slug) lines_info.
Proof.
  induction lines_info as [|d rest IH]; [reflexivity|].
  cbn. now rewrite IH.
Qed.

(** When each allocator leaves alone a line without its flag, a line
    whose variant does not have both flags is allocated as if it were sent
    down the one path of its flag. *)
Lemma line_allocation_routed info country channel_slug line_data s :
  (forall d s0, track_inventory (variant d) = false ->
     allocate_stocks [d] country channel_slug (plugins info)
       (is_reservation_enabled (site_settings info)) s0 = (s0, None)) ->
  (forall d s0, is_preorder_active (variant d) = false ->
     allocate_preorders [d] channel_slug
       (is_reservation_enabled (site_settings info)) s0 = (s0, None)) ->
  track_inventory (variant line_data)
    && is_preorder_active (variant line_data) = false ->
  line_allocation info country channel_slug line_data s =
  routed_line_allocation info country channel_slug line_data s.
Proof.
  intros Hstocks Hpreorders Hflags.
  unfold line_allocation, routed_line_allocation, allocator_outcome.
  destruct (track_inventory (variant line_data)) eqn:Htrack; cbn in Hflags.
  - destruct (allocate_stocks _ _ _ _ _ _) as [s1 [items|]]; [reflexivity|].
    now rewrite (Hpreorders _ _ Hflags).
  - rewrite (Hstocks _ _ Htrack).
    now destruct (allocate_preorders _ _ _ _) as [s2 [items|]].
Qed.

Lemma lines_allocation_routed info country channel_slug lines_info :
  (forall d s0, track_inventory (variant d) = false ->
     allocate_stocks [d] country channel_slug (plugins info)
       (is_reservation_enabled (site_settings info)) s0 = (s0, None)) ->
  (forall d s0, is_preorder_active (variant d) = false ->
     allocate_preorders [d] channel_slug
       (is_reservation_enabled (site_settings info)) s0 = (s0, None)) ->
  (forall d, In d lines_info ->
     track_inventory (variant d) && is_preorder_active (variant d) = false) ->
  forall s,
    lines_allocation info country channel_slug lines_info s =
    routed_lines_allocation info country channel_slug lines_info s.
Proof.
  intros Hstocks Hpreorders.
  induction lines_info as [|d rest IH]; intros Hflags s; [reflexivity|].
  cbn. rewrite (line_allocation_routed _ _ _ _ _ Hstocks Hpreorders)
    by (apply Hflags; now left).
  destruct (routed_line_allocation _ _ _ d s); [|reflexivity].
  apply IH. intros d' Hd'. apply Hflags. now right.
Qed.

(** C5, amended.  In a completion that succeeds, the calls of the
    allocators are, for each line whose variant tracks inventory or is
    preorder-active and in the order of the lines, a call of
    [allocate_stocks] with that one line followed by a call of
    [allocate_preorders] with the same line: both allocators get every
    such line, whichever flag it has.  When each allocator leaves alone a
    line that lacks its flag, and no line's variant has both flags, every
    line is nonetheless allocated through one path only, that of its flag:
    the stock rows the completion leaves are those of running, line after
    line, [allocate_stocks] alone on a line that tracks inventory and
    [allocate_preorders] alone on a line that does not. *)
Theorem both_allocators_called_for_each_line info id w order w' order' :
  order_rows (db w) !! id = Some order ->
  perform_mutation info id w = (w', Returned order') ->
  (exists new,
     log w' = log w ++ new /\
     List.filter is_allocation new =
       flat_map (line_calls info (get_order_country order)
                   (slug (channel order)))
         (allocated_lines order)) /\
  ((forall d s, track_inventory (variant d) = false ->
      allocate_stocks [d] (get_order_country order) (slug (channel order))
        (plugins info) (is_reservation_enabled (site_settings info)) s
      = (s, None)) ->
   (forall d s, is_preorder_active (variant d) = false ->
      allocate_preorders [d] (slug (channel order))
        (is_reservation_enabled (site_settings info)) s = (s, None)) ->
   (forall d, In d (allocated_lines order) ->
      track_inventory (variant d) && is_preorder_active (variant d) = false) ->
   routed_lines_allocation info (get_order_country order)
     (slug (channel order)) (allocated_lines order) (stock (db w))
   = inl (stock (db w'))).
Proof.
  intros Hrow Hrun.
  assert (Hgo : ~ exists e, perform_mutation info id w = (w, Raised e))
    by (intros (e & He); congruence).
  destruct (is_draft order) eqn:Hdraft;
    [|destruct Hgo; apply perform_mutation_stops; rewrite Hrow; now left].
  destruct (validate_draft_order (db w) order (get_order_country order)
              (plugins info)) as [e|] eqn:Hvalid;
    [destruct Hgo; apply perform_mutation_stops;
     rewrite Hrow, Hvalid; now right|].
  destruct (perform_mutation_runs info id w order Hrow Hdraft Hvalid)
    as (saved & gone & _ & Hcase).
  destruct (lines_allocation _ _ _ _ _) as [s'|items] eqn:Halloc.
  - rewrite Hcase in Hrun. injection Hrun as <- _. split.
    + eexists. split; [reflexivity|].
      rewrite List.filter_app, allocations_of_deleted, allocations_of_saved,
        List.filter_app, allocations_of_calls.
      cbn. now rewrite app_nil_r.
    + intros Hstocks Hpreorders Hflags.
      now rewrite <- (lines_allocation_routed _ _ _ _ Hstocks Hpreorders
                        Hflags).
  - destruct Hcase as (? & ? & ? & ? & _ & _ & _ & Hcase). congruence.
Qed.

End Properties.

(* ===================================================================== *)
(** ** The properties on the shop *)
(* ===================================================================== *)

(** *** C1 *)

(** Order 1: the shirt line comes first and does not allocate. *)
Lemma first_shortage_is_reported_shop :
  order_rows (db Shop.world) !! 1%nat = Some Shop.order1 /\
  is_draft Shop.order1 = true /\
  validate_draft_order (db Shop.world) Shop.order1
    (get_order_country Shop.order1) (plugins Shop.request) = None /\
  allocated_lines Shop.order1 =
    [] ++ order_line_info Shop.shirt_line
       :: [order_line_info Shop.mug_line] /\
  lines_allocation Shop.request (get_order_country Shop.order1)
    (slug (channel Shop.order1)) [] (stock (db Shop.world)) = inl Shop.pools /\
  line_allocation Shop.request (get_order_country Shop.order1)
    (slug (channel Shop.order1)) (order_line_info Shop.shirt_line) Shop.pools
    = inr [mkInsufficientStockData Shop.shirt (Some Shop.shirt_line) (Some 2)] /\
  ((perform_mutation Shop.request 1 Shop.world).2 =
     Raised (ValidationError
               [("lines",
                 prepare_insufficient_stock_order_validation_errors
                   [mkInsufficientStockData Shop.shirt (Some Shop.shirt_line)
                      (Some 2)])]) /\
   stock_calls (log (perform_mutation Shop.request 1 Shop.world).1) =
     stock_calls (log Shop.world) ++ [] ++ [order_line_info Shop.shirt_line] /\
   (preorder_calls (log (perform_mutation Shop.request 1 Shop.world).1) =
      preorder_calls (log Shop.world) ++ [] \/
    preorder_calls (log (perform_mutation Shop.request 1 Shop.world).1) =
      preorder_calls (log Shop.world) ++ [] ++
      [order_line_info Shop.shirt_line])).
Proof.
  refine ((fun Hrow Hdraft Hvalid Hsplit Hdone Hline =>
             conj Hrow (conj Hdraft (conj Hvalid (conj Hsplit (conj Hdone
               (conj Hline
                  (first_shortage_is_reported Shop.request 1 Shop.world
                     Shop.order1 [] (order_line_info Shop.shirt_line)
                     [order_line_info Shop.mug_line] Shop.pools _
                     Hrow Hdraft Hvalid Hsplit Hdone Hline)))))))
            _ _ _ _ _ _);
    vm_compute; reflexivity.
Defined.

(** C1 as the specification states it fails on order 1.  The shirt line and the mug line
    both lack stock, each raising InsufficientStock when allocated from the
    stock at hand; the error of the completion names the shirt line only,
    and neither [allocate_stocks] nor [allocate_preorders] was called for
    the mug line. *)
Lemma second_shortage_not_reported :
  allocated_lines Shop.order1 =
    [order_line_info Shop.shirt_line; order_line_info Shop.mug_line] /\
  line_allocation Shop.request "PL" "default"
    (order_line_info Shop.shirt_line) Shop.pools
    = inr [mkInsufficientStockData Shop.shirt (Some Shop.shirt_line) (Some 2)] /\
  line_allocation Shop.request "PL" "default"
    (order_line_info Shop.mug_line) Shop.pools
    = inr [mkInsufficientStockData Shop.mug (Some Shop.mug_line) (Some 1)] /\
  (perform_mutation Shop.request 1 Shop.world).2 =
    Raised (ValidationError
              [("lines",
                [mkErrorItem "Insufficient product stock." INSUFFICIENT_STOCK
                   [line_pk Shop.shirt_line]])]) /\
  stock_calls (log (perform_mutation Shop.request 1 Shop.world).1) =
    [order_line_info Shop.shirt_line] /\
  preorder_calls (log (perform_mutation Shop.request 1 Shop.world).1) = [] /\
  line_pk Shop.mug_line <> line_pk Shop.shirt_line.
Proof. repeat split; try (vm_compute; reflexivity). discriminate. Qed.

(** *** C2 *)

(** Order 2 is already unfulfilled. *)
Lemma not_draft_is_rejected_shop :
  order_rows (db Shop.world) !! 2%nat = Some Shop.order2 /\
  status Shop.order2 <> DRAFT /\
  perform_mutation Shop.request 2 Shop.world =
    (Shop.world,
     Raised (ValidationError
               [("id", [mkErrorItem "The order is not draft." INVALID []])])).
Proof.
  refine ((fun Hrow Hstatus =>
             conj Hrow (conj Hstatus
               (not_draft_is_rejected Shop.request 2 Shop.world Shop.order2
                  Hrow Hstatus))) _ _);
    [vm_compute; reflexivity | discriminate].
Defined.

(** *** C3 *)

(** Order 1 fails on its first line; the order stays saved as
    unfulfilled. *)
Lemma shortage_keeps_saved_order_shop :
  order_rows (db Shop.world) !! 1%nat = Some Shop.order1 /\
  is_draft Shop.order1 = true /\
  validate_draft_order (db Shop.world) Shop.order1
    (get_order_country Shop.order1) (plugins Shop.request) = None /\
  perform_mutation Shop.request 1 Shop.world =
    ((perform_mutation Shop.request 1 Shop.world).1,
     Raised (ValidationError
               [("lines",
                 [mkErrorItem "Insufficient product stock." INSUFFICIENT_STOCK
                    [11%nat]])])) /\
  exists order' gone done line_data pending,
    order_rows (db (perform_mutation Shop.request 1 Shop.world).1) !! 1%nat
      = Some order' /\
    status order' = UNFULFILLED /\
    shipping_normalized Shop.order1 order' gone /\
    address_rows (db (perform_mutation Shop.request 1 Shop.world).1) =
      delete_addresses gone (address_rows (db Shop.world)) /\
    allocated_lines Shop.order1 = done ++ line_data :: pending /\
    stock_calls (log (perform_mutation Shop.request 1 Shop.world).1) =
      stock_calls (log Shop.world) ++ done ++ [line_data] /\
    (preorder_calls (log (perform_mutation Shop.request 1 Shop.world).1) =
       preorder_calls (log Shop.world) ++ done \/
     preorder_calls (log (perform_mutation Shop.request 1 Shop.world).1) =
       preorder_calls (log Shop.world) ++ done ++ [line_data]).
Proof.
  refine ((fun Hrow Hdraft Hvalid Hraised =>
             conj Hrow (conj Hdraft (conj Hvalid (conj Hraised
               (shortage_keeps_saved_order Shop.request 1 Shop.world
                  Shop.order1 _ _ Hrow Hdraft Hvalid Hraised)))))
            _ _ _ _);
    vm_compute; reflexivity.
Defined.

(** *** C4 *)

(** The lamp line is tracked and on preorder: [allocate_stocks] takes one
    lamp from the warehouse pool, then [allocate_preorders] raises for want
    of preorder capacity.  The line's transaction undoes the first write:
    the database after the line is the one before it. *)
Example lamp_line_rolled_back :
  Shop.warehouse_pool
    (allocate_stocks [order_line_info Shop.lamp_line] "PL" "default" tt true
       Shop.pools).1 !! 6%nat = Some 2 /\
  Shop.warehouse_pool Shop.pools !! 6%nat = Some 3 /\
  db (allocate_line Shop.request "PL" "default" tt
        (order_line_info Shop.lamp_line) Shop.world).1 = db Shop.world /\
  (allocate_line Shop.request "PL" "default" tt
     (order_line_info Shop.lamp_line) Shop.world).2 =
    Raised (ValidationError
              [("lines",
                [mkErrorItem "Insufficient product stock." INSUFFICIENT_STOCK
                   [16%nat]])]).
Proof. repeat split; vm_compute; reflexivity. Qed.

(** *** C5 *)

(** The allocators of the shop leave alone a line without their flag. *)
Lemma shop_allocate_stocks_skips line_data country channel_slug s :
  track_inventory (variant line_data) = false ->
  allocate_stocks [line_data] country channel_slug tt true s = (s, None).
Proof.
  intros Htrack. cbn. unfold Shop.shop_allocate_stocks. cbn.
  rewrite Htrack. now destruct s.
Qed.

Lemma shop_allocate_preorders_skips line_data channel_slug s :
  is_preorder_active (variant line_data) = false ->
  allocate_preorders [line_data] channel_slug true s = (s, None).
Proof.
  intros Hpreorder. cbn. unfold Shop.shop_allocate_preorders. cbn.
  rewrite Hpreorder. now destruct s.
Qed.

(** Order 4 completes; none of its lines has both flags. *)
Lemma both_allocators_called_for_each_line_shop :
  order_rows (db Shop.world) !! 4%nat = Some Shop.order4 /\
  perform_mutation Shop.request 4 Shop.world =
    ((perform_mutation Shop.request 4 Shop.world).1,
     Returned
       (mkOrder UNFULFILLED None "bob@example.com" "USD" false None
          (zero_taxed_money "USD") None "bob@example.com"
          (mkChannel "default")
          [Shop.ebook_line; Shop.console_line; Shop.poster_line])) /\
  (forall d, In d (allocated_lines Shop.order4) ->
     track_inventory (variant d) && is_preorder_active (variant d) = false) /\
  (exists new,
     log (perform_mutation Shop.request 4 Shop.world).1 =
       log Shop.world ++ new /\
     List.filter is_allocation new =
       flat_map (line_calls Shop.request (get_order_country Shop.order4)
                   (slug (channel Shop.order4)))
         (allocated_lines Shop.order4)) /\
  routed_lines_allocation Shop.request (get_order_country Shop.order4)
    (slug (channel Shop.order4)) (allocated_lines Shop.order4)
    (stock (db Shop.world))
  = inl (stock (db (perform_mutation Shop.request 4 Shop.world).1)).
Proof.
  refine ((fun Hrow Hrun Hflags =>
             conj Hrow (conj Hrun (conj Hflags
               (conj
                  (proj1 (both_allocators_called_for_each_line Shop.request 4
                            Shop.world Shop.order4 _ _ Hrow Hrun))
                  (proj2 (both_allocators_called_for_each_line Shop.request 4
                            Shop.world Shop.order4 _ _ Hrow Hrun)
                     (fun d s => shop_allocate_stocks_skips d _ _ s)
                     (fun d s => shop_allocate_preorders_skips d _ s)
                     Hflags)))))
            _ _ _);
    try (vm_compute; reflexivity).
  intros d Hd. vm_compute in Hd.
  destruct Hd as [<- | [<- | []]]; reflexivity.
Defined.

(** C5 as the specification states it fails on orders 4 and 7.  In order
    4 the poster's variant tracks inventory and is not on preorder, yet
    its line is handed to [allocate_preorders] as well as to
    [allocate_stocks]; the console's variant is on preorder and does not
    track inventory, yet its line is handed to [allocate_stocks] as well
    as to [allocate_preorders].  In order 7 the lamp's variant has both
    flags, and although each allocator of the shop leaves alone a line
    without its flag, the lamp is allocated through both paths: the
    completion takes one lamp from the warehouse pool and one from the
    preorder pool. *)
Lemma tracked_line_reaches_preorder_allocator :
  track_inventory (line_variant Shop.poster_line) = true /\
  is_preorder_active (line_variant Shop.poster_line) = false /\
  In (AllocateStocks [order_line_info Shop.poster_line] "PL" "default" tt true)
     (log (perform_mutation Shop.request 4 Shop.world).1) /\
  In (AllocatePreorders [order_line_info Shop.poster_line] "default" true)
     (log (perform_mutation Shop.request 4 Shop.world).1) /\
  track_inventory (line_variant Shop.console_line) = false /\
  is_preorder_active (line_variant Shop.console_line) = true /\
  In (AllocateStocks [order_line_info Shop.console_line] "PL" "default" tt true)
     (log (perform_mutation Shop.request 4 Shop.world).1) /\
  In (AllocatePreorders [order_line_info Shop.console_line] "default" true)
     (log (perform_mutation Shop.request 4 Shop.world).1) /\
  (forall d country channel_slug s,
     track_inventory (variant d) = false ->
     allocate_stocks [d] country channel_slug tt true s = (s, None)) /\
  (forall d channel_slug s,
     is_preorder_active (variant d) = false ->
     allocate_preorders [d] channel_slug true s = (s, None)) /\
  lines Shop.order7 = [Shop.lamp_line] /\
  track_inventory (line_variant Shop.lamp_line) = true /\
  is_preorder_active (line_variant Shop.lamp_line) = true /\
  (perform_mutation Shop.request 7 Shop.world3).2 =
    Returned (set_search_document ""
                (set_shipping_price (zero_taxed_money "USD")
                   (set_status UNFULFILLED Shop.order7))) /\
  Shop.warehouse_pool (stock (db Shop.world3)) !! 6%nat = Some 3 /\
  Shop.warehouse_pool
    (stock (db (perform_mutation Shop.request 7 Shop.world3).1)) !! 6%nat
    = Some 2 /\
  Shop.preorder_pool (stock (db Shop.world3)) !! 6%nat = Some 4 /\
  Shop.preorder_pool
    (stock (db (perform_mutation Shop.request 7 Shop.world3).1)) !! 6%nat
    = Some 3.
Proof.
  repeat split;
    try (vm_compute; (reflexivity || tauto)).
  - intros d country channel_slug s. apply shop_allocate_stocks_skips.
  - intros d channel_slug s. apply shop_allocate_preorders_skips.
Qed.

(** *** C6 *)

Lemma order_saved_before_allocation_shop :
  order_rows (db Shop.world) !! 4%nat = Some Shop.order4 /\
  is_draft Shop.order4 = true /\
  validate_draft_order (db Shop.world) Shop.order4
    (get_order_country Shop.order4) (plugins Shop.request) = None /\
  exists order' before after,
    log (perform_mutation Shop.request 4 Shop.world).1 =
      log Shop.world ++ before ++ SaveOrder 4 order' :: after /\
    Forall (fun e => is_allocation e = false) before /\
    status order' = UNFULFILLED /\
    order_rows (db (perform_mutation Shop.request 4 Shop.world).1) !! 4%nat
      = Some order'.
Proof.
  refine ((fun Hrow Hdraft Hvalid =>
             conj Hrow (conj Hdraft (conj Hvalid
               (order_saved_before_allocation Shop.request 4 Shop.world
                  Shop.order4 Hrow Hdraft Hvalid))))
            _ _ _);
    vm_compute; reflexivity.
Defined.

(** *** C7 *)

(** Order 4 requires no shipping and has a shipping address. *)
Lemma shipping_is_normalized_shop :
  order_rows (db Shop.world) !! 4%nat = Some Shop.order4 /\
  is_draft Shop.order4 = true /\
  validate_draft_order (db Shop.world) Shop.order4
    (get_order_country Shop.order4) (plugins Shop.request) = None /\
  exists order',
    order_rows (db (perform_mutation Shop.request 4 Shop.world).1) !! 4%nat
      = Some order' /\
    if is_shipping_required Shop.order4 then
      shipping_method_name order' = shipping_method_name Shop.order4 /\
      shipping_price order' = shipping_price Shop.order4 /\
      shipping_address order' = shipping_address Shop.order4 /\
      address_rows (db (perform_mutation Shop.request 4 Shop.world).1) =
        address_rows (db Shop.world)
    else
      shipping_method_name order' = None /\
      shipping_price order' = zero_taxed_money (currency Shop.order4) /\
      shipping_address order' = None /\
      match shipping_address Shop.order4 with
      | Some a =>
          address_rows (db (perform_mutation Shop.request 4 Shop.world).1) =
            delete (address_pk a) (address_rows (db Shop.world)) /\
          In (DeleteAddress a)
             (log (perform_mutation Shop.request 4 Shop.world).1)
      | None =>
          address_rows (db (perform_mutation Shop.request 4 Shop.world).1) =
            address_rows (db Shop.world)
      end.
Proof.
  refine ((fun Hrow Hdraft Hvalid =>
             conj Hrow (conj Hdraft (conj Hvalid
               (shipping_is_normalized Shop.request 4 Shop.world
                  Shop.order4 Hrow Hdraft Hvalid))))
            _ _ _);
    vm_compute; reflexivity.
Defined.

(** C7 as the specification states it fails on order 3: a draft that
    requires no
    shipping and has a shipping method name.  Draft validation refuses it,
    the completion ends there, and the row keeps its shipping method name
    and its shipping price. *)
Lemma refused_draft_keeps_shipping :
  order_rows (db Shop.world) !! 3%nat = Some Shop.order3 /\
  is_draft Shop.order3 = true /\
  is_shipping_required Shop.order3 = false /\
  validate_draft_order (db Shop.world) Shop.order3
    (get_order_country Shop.order3) (plugins Shop.request) =
    Some (ValidationError
            [("lines",
              [mkErrorItem "Could not create order without any products."
                 (OtherCode "required") []])]) /\
  order_rows (db (perform_mutation Shop.request 3 Shop.world).1) !! 3%nat
    = Some Shop.order3 /\
  shipping_method_name Shop.order3 = Some "DHL" /\
  shipping_price Shop.order3 <> zero_taxed_money (currency Shop.order3).
Proof. repeat split; try (vm_compute; reflexivity). discriminate. Qed.

(** *** C8 *)

(** The e-book line of order 4 has neither flag. *)
Lemma unflagged_line_is_skipped_shop :
  track_inventory (line_variant Shop.ebook_line) = false /\
  is_preorder_active (line_variant Shop.ebook_line) = false /\
  exists new,
    log (perform_mutation Shop.request 4 Shop.world).1 =
      log Shop.world ++ new /\
    Forall (fun e => ~ In Shop.ebook_line (effect_lines e)) new.
Proof.
  refine ((fun Htrack Hpreorder =>
             conj Htrack (conj Hpreorder
               (unflagged_line_is_skipped Shop.request 4 Shop.world
                  Shop.ebook_line Htrack Hpreorder))) _ _);
    vm_compute; reflexivity.
Defined.

(** *** C9 *)

Lemma event_iff_all_lines_allocated_shop :
  order_rows (db Shop.world) !! 4%nat = Some Shop.order4 /\
  is_draft Shop.order4 = true /\
  validate_draft_order (db Shop.world) Shop.order4
    (get_order_country Shop.order4) (plugins Shop.request) = None /\
  exists order' new,
    log (perform_mutation Shop.request 4 Shop.world).1 =
      log Shop.world ++ new /\
    order_rows (db (perform_mutation Shop.request 4 Shop.world).1) !! 4%nat
      = Some order' /\
    ((exists e, In e new /\ is_order_created e = true) <->
     (exists s',
        lines_allocation Shop.request (get_order_country Shop.order4)
          (slug (channel Shop.order4)) (allocated_lines Shop.order4)
          (stock (db Shop.world))
        = inl s')) /\
    (forall e, In e new -> is_order_created e = true ->
       e = OrderCreated
             (mkOrderInfo order' (get_customer_email order') (channel order')
                (get_last_payment
                   (db (perform_mutation Shop.request 4 Shop.world).1) order')
                (allocated_lines Shop.order4))
             (context_user Shop.request) (context_app Shop.request)
             (plugins Shop.request) true).
Proof.
  refine ((fun Hrow Hdraft Hvalid =>
             conj Hrow (conj Hdraft (conj Hvalid
               (event_iff_all_lines_allocated Shop.request 4 Shop.world
                  Shop.order4 Hrow Hdraft Hvalid))))
            _ _ _);
    vm_compute; reflexivity.
Defined.

(** C9 as the specification states it fails on order 5: a draft whose only
    line is in
    stock, so that no line would raise a shortage, and which draft
    validation refuses for want of a shipping address.  No allocator is
    called, no shortage is raised, and no event is emitted: the run adds
    nothing to the log. *)
Lemma refused_draft_emits_no_event :
  order_rows (db Shop.world) !! 5%nat = Some Shop.order5 /\
  is_draft Shop.order5 = true /\
  allocated_lines Shop.order5 = [order_line_info Shop.poster_line] /\
  (exists s',
     lines_allocation Shop.request (get_order_country Shop.order5)
       (slug (channel Shop.order5)) (allocated_lines Shop.order5)
       (stock (db Shop.world)) = inl s') /\
  (perform_mutation Shop.request 5 Shop.world).2 =
    Raised (ValidationError
              [("shipping",
                [mkErrorItem "Can not finalize draft with no shipping address."
                   (OtherCode "order_no_shipping_address") []])]) /\
  log (perform_mutation Shop.request 5 Shop.world).1 = [].
Proof.
  repeat split; try (vm_compute; reflexivity).
  eexists. vm_compute. reflexivity.
Qed.

(** *** C10 *)

(** Order 1 has no user and the email of a customer; order 4 has no user
    and an email no customer has; order 2 has a user. *)
Example update_user_fields_shop :
  update_user_fields Shop.order1 Shop.world =
    (Shop.world, Returned (set_user (Some Shop.ann) Shop.order1)) /\
  update_user_fields Shop.order4 Shop.world =
    (Shop.world, Returned (set_user None Shop.order4)) /\
  update_user_fields Shop.order2 Shop.world =
    (Shop.world, Returned (set_user_email "ann@example.com" Shop.order2)).
Proof. repeat split; vm_compute; reflexivity. Qed.

(* ===================================================================== *)
(** ** Further properties of the mutation *)
(* ===================================================================== *)

Section Further.
Context `{Collaborators}.

(** *** What the steps after the save leave alone *)

(** The loop writes stock rows only. *)
Lemma allocate_order_lines_db info country channel_slug order_lines acc w :
  exists s,
    db (allocate_order_lines info country channel_slug (plugins info)
          order_lines acc w).1 = set_stock s (db w).
Proof.
  destruct (lines_allocation info country channel_slug
              (map order_line_info (List.filter needs_allocation order_lines))
              (stock (db w))) as [s'|items] eqn:Halloc.
  - rewrite (allocate_order_lines_returns _ _ _ _ _ _ _ Halloc). now exists s'.
  - destruct (lines_allocation_first_short _ _ _ _ _ _ Halloc)
      as (done & ld & pending & s & Hsplit & Hdone & Hld).
    rewrite (allocate_order_lines_raises _ _ _ _ _ _ _ _ _ _ _
               Hsplit Hdone Hld).
    now exists s.
Qed.

(** So do the loop and what follows it. *)
Lemma after_save_db info country order' w1 :
  exists s,
    db ((order_lines_info <-
           allocate_order_lines info country (slug (channel order'))
             (plugins info) (lines order') [] ;;
         payment <- gets (fun w => get_last_payment (db w) order') ;;
         order_created
           (mkOrderInfo order' (get_customer_email order') (channel order')
              payment order_lines_info)
           (context_user info) (context_app info) (plugins info) true ;;;
         ret order') w1).1 = set_stock s (db w1).
Proof.
  destruct (allocate_order_lines_db info country (slug (channel order'))
              (lines order') [] w1) as (s & Hs).
  exists s. unfold bind at 1.
  destruct (allocate_order_lines _ _ _ _ _ _ w1) as [w2 [infos|e]];
    cbn in *; exact Hs.
Qed.

Lemma normalize_shipping_keeps order w wn o' :
  normalize_shipping order w = (wn, Returned o') ->
  user o' = user order /\
  user_email o' = user_email order /\
  search_document o' = search_document order /\
  user_rows (db wn) = user_rows (db w) /\
  stock (db wn) = stock (db w).
Proof.
  unfold normalize_shipping.
  destruct (is_shipping_required order); cbn.
  - unfold ret. now intros [= <- <-].
  - destruct (shipping_address order) as [a|]; cbn;
      unfold ret; now intros [= <- <-].
Qed.

(** The row of the order when the run ends, step by step: the customer is
    resolved, the status set, the shipping normalized, and the search
    document computed from the order so far and the database as the
    shipping block left it. *)
Lemma perform_mutation_saved_row info id w order :
  order_rows (db w) !! id = Some order ->
  is_draft order = true ->
  validate_draft_order (db w) order (get_order_country order) (plugins info)
    = None ->
  exists customer o' wn,
    update_user_fields order w = (w, Returned customer) /\
    normalize_shipping (set_status UNFULFILLED customer) w
      = (wn, Returned o') /\
    order_rows (db (perform_mutation info id w).1) =
      <[id := set_search_document
                (prepare_order_search_document_value (db wn) o') o']>
        (order_rows (db wn)) /\
    address_rows (db (perform_mutation info id w).1) = address_rows (db wn) /\
    user_rows (db (perform_mutation info id w).1) = user_rows (db wn).
Proof.
  intros Hrow Hdraft Hvalid. unfold perform_mutation.
  rewrite (bind_returned _ _ w w order)
    by (unfold get_node_or_error; now rewrite Hrow).
  rewrite (bind_returned _ _ w w tt)
    by (unfold validate_order; now rewrite Hdraft).
  rewrite (bind_returned _ _ w w tt)
    by (unfold call_validate_draft_order; now rewrite Hvalid).
  destruct (update_user_fields_returns order w) as (u & e & Hu).
  rewrite (bind_returned _ _ _ _ _ Hu).
  destruct (normalize_shipping
              (set_status UNFULFILLED (set_user_email e (set_user u order))) w)
    as [wn [o'|exc]] eqn:Hn.
  2:{ destruct (normalize_shipping_returns
                  (set_status UNFULFILLED (set_user_email e (set_user u order)))
                  w) as (? & ? & Hn' & _). congruence. }
  rewrite (bind_returned _ _ _ _ _ Hn).
  rewrite bind_gets. unfold Order_save. rewrite bind_modify.
  exists (set_user_email e (set_user u order)), o', wn.
  split; [exact Hu|]. split; [exact Hn|].
  match goal with
  | |- order_rows (db (?k ?w1).1) = _ /\ _ =>
      destruct (after_save_db info (get_order_country order)
                  (set_search_document
                     (prepare_order_search_document_value (db wn) o') o') w1)
        as (s & Hs)
  end.
  cbn in Hs. cbn. rewrite Hs. world_simpl. auto.
Qed.

Lemma update_user_fields_resolves order w customer :
  update_user_fields order w = (w, Returned customer) ->
  search_document customer = search_document order /\
  match user order with
  | Some u => user customer = Some u /\ user_email customer = email u
  | None =>
      user_email customer = user_email order /\
      user customer =
        if truthy (user_email order)
        then user_rows (db w) !! user_email order
        else None
  end.
Proof.
  unfold update_user_fields.
  destruct (user order) as [u|] eqn:Hu.
  - unfold ret. intros [= <-]. cbn. auto.
  - destruct (truthy (user_email order)).
    + unfold except_DoesNotExist, bind, User_objects_get, ret.
      destruct (user_rows (db w) !! user_email order) as [u|];
        intros [= <-]; cbn; auto.
    + unfold ret. intros [= <-]. auto.
Qed.

(** A run either stops with the world untouched, or is that of a draft
    order that passes draft validation. *)
Lemma perform_mutation_stops_or_runs info id w :
  (exists e, perform_mutation info id w = (w, Raised e)) \/
  (exists order,
     order_rows (db w) !! id = Some order /\
     is_draft order = true /\
     validate_draft_order (db w) order (get_order_country order)
       (plugins info) = None).
Proof.
  destruct (order_rows (db w) !! id) as [order|] eqn:Hrow;
    [|left; apply perform_mutation_stops; now rewrite Hrow].
  destruct (is_draft order) eqn:Hdraft;
    [|left; apply perform_mutation_stops; rewrite Hrow; now left].
  destruct (validate_draft_order (db w) order (get_order_country order)
              (plugins info)) as [e|] eqn:Hvalid;
    [left; apply perform_mutation_stops; rewrite Hrow, Hvalid; now right|].
  right. now exists order.
Qed.

(** The database when a run on a draft order that passes draft validation
    ends. *)
Lemma perform_mutation_final_db info id w order :
  order_rows (db w) !! id = Some order ->
  is_draft order = true ->
  validate_draft_order (db w) order (get_order_country order) (plugins info)
    = None ->
  exists order' gone s,
    saved_as order order' gone /\
    db (perform_mutation info id w).1 = completed_db id order' gone s (db w).
Proof.
  intros Hrow Hdraft Hvalid.
  destruct (perform_mutation_runs info id w order Hrow Hdraft Hvalid)
    as (order' & gone & Hsaved & Hrun).
  exists order', gone.
  destruct (lines_allocation _ _ _ _ _) as [s'|items].
  - exists s'. now rewrite Hrun.
  - destruct Hrun as (? & ? & ? & s & _ & _ & _ & Hrun).
    exists s. now rewrite Hrun.
Qed.

(** *** Refusals *)

(** X1. A draft order that draft validation refuses ends the mutation with
    the exception of the validation and an untouched world: nothing is
    assigned, saved, deleted, allocated or emitted. *)
Theorem refused_draft_changes_nothing info id w order e :
  order_rows (db w) !! id = Some order ->
  is_draft order = true ->
  validate_draft_order (db w) order (get_order_country order) (plugins info)
    = Some e ->
  perform_mutation info id w = (w, Raised e).
Proof.
  intros Hrow Hdraft Hvalid. unfold perform_mutation.
  rewrite (bind_returned _ _ w w order)
    by (unfold get_node_or_error; now rewrite Hrow).
  rewrite (bind_returned _ _ w w tt)
    by (unfold validate_order; now rewrite Hdraft).
  apply bind_raised. unfold call_validate_draft_order. now rewrite Hvalid.
Qed.

(** *** What a run leaves alone *)

(** X3. A run creates and removes no row of another order.  It leaves
    such a row as it was, or, when it deletes the shipping address of the
    order it completes (a draft that passes draft validation, requires no
    shipping and has a shipping address), as it was with its reference to
    that address row cleared if it had one. *)
Theorem other_rows_keep_all_but_address info id w id' :
  id' <> id ->
  order_rows (db (perform_mutation info id w).1) !! id' =
    order_rows (db w) !! id' \/
  exists order a,
    order_rows (db w) !! id = Some order /\
    is_draft order = true /\
    validate_draft_order (db w) order (get_order_country order)
      (plugins info) = None /\
    is_shipping_required order = false /\
    shipping_address order = Some a /\
    order_rows (db (perform_mutation info id w).1) !! id' =
      detach_address a <$> order_rows (db w) !! id'.
Proof.
  intros Hid.
  destruct (perform_mutation_stops_or_runs info id w)
    as [(e & ->) | (order & Hrow & Hdraft & Hvalid)]; [now left|].
  destruct (perform_mutation_final_db info id w order Hrow Hdraft Hvalid)
    as (order' & gone & s & (_ & _ & _ & _ & Hship) & ->).
  cbn. rewrite lookup_insert_ne by congruence.
  unfold shipping_normalized in Hship.
  destruct (is_shipping_required order) eqn:Hreq.
  - destruct Hship as (_ & _ & _ & ->). now left.
  - destruct Hship as (_ & _ & _ & ->).
    destruct (shipping_address order) as [a|] eqn:Ha; [|now left].
    right. exists order, a. cbn. now rewrite lookup_fmap.
Qed.

(** X4.The only address row a run can delete is the shipping address of
    the order it completes: every other address row is as it was, whatever
    the input and however the run ends. *)
Theorem only_own_address_deleted info id w k :
  (forall order a,
     order_rows (db w) !! id = Some order ->
     shipping_address order = Some a -> address_pk a <> k) ->
  address_rows (db (perform_mutation info id w).1) !! k =
    address_rows (db w) !! k.
Proof.
  intros Hk.
  destruct (perform_mutation_stops_or_runs info id w)
    as [(e & ->) | (order & Hrow & Hdraft & Hvalid)]; [now cbn|].
  destruct (perform_mutation_final_db info id w order Hrow Hdraft Hvalid)
    as (order' & gone & s & (_ & _ & _ & _ & Hship) & ->).
  cbn. unfold shipping_normalized in Hship.
  destruct (is_shipping_required order).
  - now destruct Hship as (_ & _ & _ & ->).
  - destruct Hship as (_ & _ & _ & ->).
    destruct (shipping_address order) as [a|] eqn:Ha; [|reflexivity].
    cbn. apply lookup_delete_ne. now apply (Hk order a).
Qed.

(** *** The calls of the allocators *)

Lemma allocated_lines_from order line_data :
  In line_data (allocated_lines order) ->
  exists l,
    In l (lines order) /\ needs_allocation l = true /\
    line_data = order_line_info l.
Proof.
  unfold allocated_lines. rewrite in_map_iff.
  intros (l & <- & Hl). apply filter_In in Hl as (Hin & Hneed). eauto.
Qed.

(** X5. Every call of an allocator that a run makes carries exactly one
    line, a line of the order that tracks inventory or is preorder-active,
    together with the channel slug of the order, the reservation setting
    of the site and, for [allocate_stocks], the plugins manager of the
    request and the country computed from the order as it was loaded,
    before its shipping address is deleted. *)
Theorem allocator_calls_carry_one_line info id w order :
  order_rows (db w) !! id = Some order ->
  exists new,
    log (perform_mutation info id w).1 = log w ++ new /\
    forall e, In e new -> is_allocation e = true ->
      exists l,
        In l (lines order) /\ needs_allocation l = true /\
        (e = AllocateStocks [order_line_info l] (get_order_country order)
               (slug (channel order)) (plugins info)
               (is_reservation_enabled (site_settings info)) \/
         e = AllocatePreorders [order_line_info l] (slug (channel order))
               (is_reservation_enabled (site_settings info))).
Proof.
  intros Hrow.
  destruct (perform_mutation_stops_or_runs info id w)
    as [(e & ->) | (order0 & Hrow0 & Hdraft & Hvalid)].
  { exists []. cbn. rewrite app_nil_r. split; [reflexivity|]. intros ? []. }
  assert (order0 = order) as -> by congruence.
  assert (Hcalls : forall lines_info e,
    (forall d, In d lines_info -> In d (allocated_lines order)) ->
    In e (flat_map (line_calls info (get_order_country order)
                      (slug (channel order))) lines_info) ->
    exists l,
      In l (lines order) /\ needs_allocation l = true /\
      (e = AllocateStocks [order_line_info l] (get_order_country order)
             (slug (channel order)) (plugins info)
             (is_reservation_enabled (site_settings info)) \/
       e = AllocatePreorders [order_line_info l] (slug (channel order))
             (is_reservation_enabled (site_settings info)))).
  { intros lds e Hsub He. apply in_flat_map in He as (d & Hd & He).
    apply Hsub, allocated_lines_from in Hd as (l & Hl & Hneed & ->).
    exists l. destruct He as [<- | [<- | []]]; auto. }
  destruct (perform_mutation_runs info id w order Hrow Hdraft Hvalid)
    as (order' & gone & _ & Hrun).
  destruct (lines_allocation _ _ _ _ _) as [s'|items].
  - rewrite Hrun. eexists. split; [reflexivity|].
    intros e He Hcall. rewrite !in_app_iff in He.
    destruct He as [He | [[<- | []] | [He | [<- | []]]]]; try discriminate.
    + apply in_map_iff in He as (? & <- & _). discriminate.
    + now apply (Hcalls (allocated_lines order)).
  - destruct Hrun as (done & ld & pending & s & Hsplit & _ & _ & Hrun).
    rewrite Hrun. eexists. split; [reflexivity|].
    intros e He Hcall. rewrite !in_app_iff in He.
    destruct He as [He | [[<- | []] | [He | He]]]; try discriminate.
    + apply in_map_iff in He as (? & <- & _). discriminate.
    + apply (Hcalls done); [|exact He].
      intros d Hd. rewrite Hsplit, in_app_iff. now left.
    + apply (Hcalls [ld]).
      * intros d [<- | []]. rewrite Hsplit, in_app_iff. right. now left.
      * cbn. unfold failed_line_calls in He.
        destruct (allocate_stocks _ _ _ _ _ _) as [? [?|]]; [|exact He].
        destruct He as [<- | []]. now left.
Qed.

(** *** A completion that succeeds *)

Lemma returned_run_is_draft info id w order w' order' :
  order_rows (db w) !! id = Some order ->
  perform_mutation info id w = (w', Returned order') ->
  is_draft order = true /\
  validate_draft_order (db w) order (get_order_country order) (plugins info)
    = None.
Proof.
  intros Hrow Hrun.
  destruct (perform_mutation_stops_or_runs info id w)
    as [(e & He) | (order0 & Hrow0 & Hdraft & Hvalid)]; [congruence|].
  assert (order0 = order) as -> by congruence. auto.
Qed.

(** X6. When completion succeeds, the stock rows it leaves are those the
    two allocators leave when run on the lines one by one, in the order of
    the lines and each line on the rows the line before left. *)
Theorem completed_stock_is_line_by_line info id w order w' order' :
  order_rows (db w) !! id = Some order ->
  perform_mutation info id w = (w', Returned order') ->
  lines_allocation info (get_order_country order) (slug (channel order))
    (allocated_lines order) (stock (db w)) = inl (stock (db w')).
Proof.
  intros Hrow Hrun.
  destruct (returned_run_is_draft _ _ _ _ _ _ Hrow Hrun) as (Hdraft & Hvalid).
  destruct (perform_mutation_runs info id w order Hrow Hdraft Hvalid)
    as (saved & gone & _ & Hcase).
  destruct (lines_allocation _ _ _ _ _) as [s'|items].
  - rewrite Hcase in Hrun. now injection Hrun as <- _.
  - destruct Hcase as (? & ? & ? & ? & _ & _ & _ & Hcase). congruence.
Qed.

(** X7. When completion succeeds, the completion event is the last thing
    the run does and the only event: before it, both allocators were
    called for every line that needs allocation; and the order it carries
    is the order the mutation returns, which is the row of the order. *)
Theorem event_is_last info id w order w' order' :
  order_rows (db w) !! id = Some order ->
  perform_mutation info id w = (w', Returned order') ->
  exists before order_info,
    log w' =
      log w ++ before ++
      [OrderCreated order_info (context_user info) (context_app info)
         (plugins info) true] /\
    Forall (fun e => is_order_created e = false) before /\
    stock_calls before = allocated_lines order /\
    preorder_calls before = allocated_lines order /\
    info_order order_info = order' /\
    order_rows (db w') !! id = Some order'.
Proof.
  intros Hrow Hrun.
  destruct (returned_run_is_draft _ _ _ _ _ _ Hrow Hrun) as (Hdraft & Hvalid).
  destruct (perform_mutation_runs info id w order Hrow Hdraft Hvalid)
    as (saved & gone & _ & Hcase).
  destruct (lines_allocation _ _ _ _ _) as [s'|items].
  2:{ destruct Hcase as (? & ? & ? & ? & _ & _ & _ & Hcase). congruence. }
  rewrite Hcase in Hrun. injection Hrun as <- <-.
  exists (map DeleteAddress gone ++ [SaveOrder id saved] ++
          flat_map (line_calls info (get_order_country order)
                      (slug (channel order))) (allocated_lines order)).
  eexists. cbn [log db]. split; [now rewrite <- !app_assoc|].
  split.
  { apply List.Forall_forall. intros e He. rewrite !in_app_iff in He.
    destruct He as [He | [[<- | []] | He]]; [|reflexivity|].
    - now apply not_created_in_deleted in He.
    - now apply not_created_in_calls in He. }
  rewrite !stock_calls_app, !preorder_calls_app, stock_calls_deleted,
    preorder_calls_deleted, stock_calls_lines, preorder_calls_lines.
  cbn. repeat split. apply lookup_insert_eq.
Qed.

(** *** A completion that fails on a line *)

(** X8. When the completion of a draft order that passed draft validation
    ends in an exception, the stock rows are those the lines before the
    failing line left: their allocations are kept, and the failing line,
    run on those rows, is the one that raises. *)
Theorem earlier_allocations_are_kept info id w order w' e :
  order_rows (db w) !! id = Some order ->
  is_draft order = true ->
  validate_draft_order (db w) order (get_order_country order) (plugins info)
    = None ->
  perform_mutation info id w = (w', Raised e) ->
  exists done line_data pending items,
    allocated_lines order = done ++ line_data :: pending /\
    lines_allocation info (get_order_country order) (slug (channel order))
      done (stock (db w)) = inl (stock (db w')) /\
    line_allocation info (get_order_country order) (slug (channel order))
      line_data (stock (db w')) = inr items /\
    e = ValidationError
          [("lines", prepare_insufficient_stock_order_validation_errors items)].
Proof.
  intros Hrow Hdraft Hvalid Hraised.
  destruct (perform_mutation_runs info id w order Hrow Hdraft Hvalid)
    as (order' & gone & _ & Hrun).
  destruct (lines_allocation _ _ _ _ _) as [s'|items]; [congruence|].
  destruct Hrun as (done & ld & pending & s & Hsplit & Hdone & Hld & Hrun).
  rewrite Hrun in Hraised. injection Hraised as <- <-.
  exists done, ld, pending, items. cbn. auto.
Qed.

(** *** The saved order *)

(** X9. The order that completion saves carries the resolved customer:
    with a user attached, that user and the user's email; with no user,
    the email it had and, when that email is not empty, the user row with
    that email if there is one, and no user otherwise. *)
Theorem saved_order_has_resolved_customer info id w order :
  order_rows (db w) !! id = Some order ->
  is_draft order = true ->
  validate_draft_order (db w) order (get_order_country order) (plugins info)
    = None ->
  exists order',
    order_rows (db (perform_mutation info id w).1) !! id = Some order' /\
    match user order with
    | Some u => user order' = Some u /\ user_email order' = email u
    | None =>
        user_email order' = user_email order /\
        user order' =
          if truthy (user_email order)
          then user_rows (db w) !! user_email order
          else None
    end.
Proof.
  intros Hrow Hdraft Hvalid.
  destruct (perform_mutation_saved_row info id w order Hrow Hdraft Hvalid)
    as (customer & o' & wn & Hu & Hn & Hsaved & _).
  eexists. split; [rewrite Hsaved; apply lookup_insert_eq|].
  apply normalize_shipping_keeps in Hn as (Huser & Hemail & _).
  apply update_user_fields_resolves in Hu as (_ & Hu).
  cbn in *. rewrite Huser, Hemail. exact Hu.
Qed.

(** X10. The search document of the saved order is computed from the
    order as completion made it, with status Unfulfilled, the resolved
    customer and the normalized shipping, and still with the search
    document it was loaded with; and on the database as it is just before
    the save: the order rows are those of the end of the run but for the
    save of the order, the address and user rows are those of the end of
    the run, the shipping address being already deleted, and the stock
    rows are those of the start, no line being allocated yet. *)
Theorem search_document_of_finalized_order info id w order :
  order_rows (db w) !! id = Some order ->
  is_draft order = true ->
  validate_draft_order (db w) order (get_order_country order) (plugins info)
    = None ->
  exists order' d,
    order_rows (db (perform_mutation info id w).1) !! id = Some order' /\
    status order' = UNFULFILLED /\
    search_document order' =
      prepare_order_search_document_value d
        (set_search_document (search_document order) order') /\
    order_rows (db (perform_mutation info id w).1) =
      <[id := order']> (order_rows d) /\
    address_rows d = address_rows (db (perform_mutation info id w).1) /\
    user_rows d = user_rows (db (perform_mutation info id w).1) /\
    stock d = stock (db w).
Proof.
  intros Hrow Hdraft Hvalid.
  destruct (perform_mutation_saved_row info id w order Hrow Hdraft Hvalid)
    as (customer & o' & wn & Hu & Hn & Hsaved & Haddr & Husers).
  eexists _, (db wn).
  split; [rewrite Hsaved; apply lookup_insert_eq|].
  destruct (normalize_shipping_returns (set_status UNFULFILLED customer) w)
    as (o2 & gone & Hn' & Hstatus & _).
  assert (o2 = o') as -> by congruence.
  apply normalize_shipping_keeps in Hn as (_ & _ & Hdoc & _ & Hstock).
  apply update_user_fields_resolves in Hu as (Hdoc' & _).
  cbn in *. split; [exact Hstatus|].
  split; [|auto].
  f_equal. rewrite <- Hdoc', <- Hdoc. now destruct o'.
Qed.

(** X11. When every user row is stored under its own email, the order that
    completion saves is consistent: if it has a user, its email is that
    user's email. *)
Theorem saved_order_email_is_its_users info id w order :
  (forall e u, user_rows (db w) !! e = Some u -> email u = e) ->
  order_rows (db w) !! id = Some order ->
  is_draft order = true ->
  validate_draft_order (db w) order (get_order_country order) (plugins info)
    = None ->
  exists order',
    order_rows (db (perform_mutation info id w).1) !! id = Some order' /\
    forall u, user order' = Some u -> user_email order' = email u.
Proof.
  intros Hkeys Hrow Hdraft Hvalid.
  destruct (perform_mutation_saved_row info id w order Hrow Hdraft Hvalid)
    as (customer & o' & wn & Hu & Hn & Hsaved & _).
  eexists. split; [rewrite Hsaved; apply lookup_insert_eq|].
  apply normalize_shipping_keeps in Hn as (Huser & Hemail & _).
  apply update_user_fields_resolves in Hu as (_ & Hu).
  cbn in *. rewrite Huser, Hemail. intros u Hsome.
  destruct (user order) as [u0|].
  - destruct Hu as (Hu1 & ->). congruence.
  - destruct Hu as (-> & Hu2). rewrite Hu2 in Hsome.
    destruct (truthy (user_email order)); [|discriminate].
    symmetry. now apply Hkeys.
Qed.

End Further.

(* ===================================================================== *)
(** ** The further properties on the shop *)
(* ===================================================================== *)

(** Order 5 is refused by draft validation. *)
Lemma refused_draft_changes_nothing_shop :
  order_rows (db Shop.world) !! 5%nat = Some Shop.order5 /\
  is_draft Shop.order5 = true /\
  validate_draft_order (db Shop.world) Shop.order5
    (get_order_country Shop.order5) (plugins Shop.request) =
    Some (ValidationError
            [("shipping",
              [mkErrorItem "Can not finalize draft with no shipping address."
                 (OtherCode "order_no_shipping_address") []])]) /\
  perform_mutation Shop.request 5 Shop.world =
    (Shop.world,
     Raised (ValidationError
               [("shipping",
                 [mkErrorItem
                    "Can not finalize draft with no shipping address."
                    (OtherCode "order_no_shipping_address") []])])).
Proof.
  refine ((fun Hrow Hdraft Hvalid =>
             conj Hrow (conj Hdraft (conj Hvalid
               (refused_draft_changes_nothing Shop.request 5 Shop.world
                  Shop.order5 _ Hrow Hdraft Hvalid))))
            _ _ _);
    vm_compute; reflexivity.
Defined.

(** Order 1 fails on a line; its completion cannot be tried again. *)
Lemma second_completion_is_rejected_shop :
  order_rows (db Shop.world) !! 1%nat = Some Shop.order1 /\
  is_draft Shop.order1 = true /\
  validate_draft_order (db Shop.world) Shop.order1
    (get_order_country Shop.order1) (plugins Shop.request) = None /\
  perform_mutation Shop.request 1
    (perform_mutation Shop.request 1 Shop.world).1 =
    ((perform_mutation Shop.request 1 Shop.world).1,
     Raised (ValidationError
               [("id", [mkErrorItem "The order is not draft." INVALID []])])).
Proof.
  refine ((fun Hrow Hdraft Hvalid =>
             conj Hrow (conj Hdraft (conj Hvalid
               (second_completion_is_rejected Shop.request Shop.request 1
                  Shop.world Shop.order1 Hrow Hdraft Hvalid))))
            _ _ _);
    vm_compute; reflexivity.
Defined.

(** Orders 1 and 4 share the address row 31.  Completing order 4 deletes
    the row, and the row of order 1 is left with no shipping address and
    otherwise as it was. *)
Lemma other_rows_keep_all_but_address_shop :
  1%nat <> 4%nat /\
  shipping_address Shop.order1 = shipping_address Shop.order4 /\
  order_rows (db (perform_mutation Shop.request 4 Shop.world).1) !! 1%nat =
    Some (set_shipping_address None Shop.order1) /\
  (order_rows (db (perform_mutation Shop.request 4 Shop.world).1) !! 1%nat =
     order_rows (db Shop.world) !! 1%nat \/
   exists order a,
     order_rows (db Shop.world) !! 4%nat = Some order /\
     is_draft order = true /\
     validate_draft_order (db Shop.world) order (get_order_country order)
       (plugins Shop.request) = None /\
     is_shipping_required order = false /\
     shipping_address order = Some a /\
     order_rows (db (perform_mutation Shop.request 4 Shop.world).1) !! 1%nat =
       detach_address a <$> order_rows (db Shop.world) !! 1%nat).
Proof.
  refine ((fun Hid Hshared Hrow =>
             conj Hid (conj Hshared (conj Hrow
               (other_rows_keep_all_but_address Shop.request 4 Shop.world 1
                  Hid)))) _ _ _).
  - discriminate.
  - reflexivity.
  - vm_compute. reflexivity.
Defined.

(** Completing order 4 in the second world deletes its shipping address,
    row 31, and leaves the office, row 32. *)
Lemma only_own_address_deleted_shop :
  (forall order a,
     order_rows (db Shop.world2) !! 4%nat = Some order ->
     shipping_address order = Some a -> address_pk a <> 32%nat) /\
  address_rows (db (perform_mutation Shop.request 4 Shop.world2).1) !! 32%nat =
    address_rows (db Shop.world2) !! 32%nat.
Proof.
  refine ((fun Hk =>
             conj Hk
               (only_own_address_deleted Shop.request 4 Shop.world2 32 Hk)) _).
  intros order a Hrow Ha. vm_compute in Hrow. injection Hrow as <-.
  vm_compute in Ha. injection Ha as <-. discriminate.
Defined.

Lemma allocator_calls_carry_one_line_shop :
  order_rows (db Shop.world) !! 4%nat = Some Shop.order4 /\
  exists new,
    log (perform_mutation Shop.request 4 Shop.world).1 =
      log Shop.world ++ new /\
    forall e, In e new -> is_allocation e = true ->
      exists l,
        In l (lines Shop.order4) /\ needs_allocation l = true /\
        (e = AllocateStocks [order_line_info l]
               (get_order_country Shop.order4) (slug (channel Shop.order4))
               (plugins Shop.request)
               (is_reservation_enabled (site_settings Shop.request)) \/
         e = AllocatePreorders [order_line_info l]
               (slug (channel Shop.order4))
               (is_reservation_enabled (site_settings Shop.request))).
Proof.
  refine ((fun Hrow =>
             conj Hrow
               (allocator_calls_carry_one_line Shop.request 4 Shop.world
                  Shop.order4 Hrow)) _).
  vm_compute; reflexivity.
Defined.

(** Order 4 completes. *)
Lemma completed_stock_is_line_by_line_shop :
  order_rows (db Shop.world) !! 4%nat = Some Shop.order4 /\
  perform_mutation Shop.request 4 Shop.world =
    ((perform_mutation Shop.request 4 Shop.world).1,
     Returned
       (mkOrder UNFULFILLED None "bob@example.com" "USD" false None
          (zero_taxed_money "USD") None "bob@example.com"
          (mkChannel "default")
          [Shop.ebook_line; Shop.console_line; Shop.poster_line])) /\
  lines_allocation Shop.request (get_order_country Shop.order4)
    (slug (channel Shop.order4)) (allocated_lines Shop.order4)
    (stock (db Shop.world)) =
    inl (stock (db (perform_mutation Shop.request 4 Shop.world).1)).
Proof.
  refine ((fun Hrow Hrun =>
             conj Hrow (conj Hrun
               (completed_stock_is_line_by_line Shop.request 4 Shop.world
                  Shop.order4 _ _ Hrow Hrun))) _ _);
    vm_compute; reflexivity.
Defined.

Lemma event_is_last_shop :
  order_rows (db Shop.world) !! 4%nat = Some Shop.order4 /\
  perform_mutation Shop.request 4 Shop.world =
    ((perform_mutation Shop.request 4 Shop.world).1,
     Returned
       (mkOrder UNFULFILLED None "bob@example.com" "USD" false None
          (zero_taxed_money "USD") None "bob@example.com"
          (mkChannel "default")
          [Shop.ebook_line; Shop.console_line; Shop.poster_line])) /\
  exists before order_info,
    log (perform_mutation Shop.request 4 Shop.world).1 =
      log Shop.world ++ before ++
      [OrderCreated order_info (context_user Shop.request)
         (context_app Shop.request) (plugins Shop.request) true] /\
    Forall (fun e => is_order_created e = false) before /\
    stock_calls before = allocated_lines Shop.order4 /\
    preorder_calls before = allocated_lines Shop.order4 /\
    info_order order_info =
      mkOrder UNFULFILLED None "bob@example.com" "USD" false None
        (zero_taxed_money "USD") None "bob@example.com"
        (mkChannel "default")
        [Shop.ebook_line; Shop.console_line; Shop.poster_line] /\
    order_rows (db (perform_mutation Shop.request 4 Shop.world).1) !! 4%nat =
      Some (mkOrder UNFULFILLED None "bob@example.com" "USD" false None
              (zero_taxed_money "USD") None "bob@example.com"
              (mkChannel "default")
              [Shop.ebook_line; Shop.console_line; Shop.poster_line]).
Proof.
  refine ((fun Hrow Hrun =>
             conj Hrow (conj Hrun
               (event_is_last Shop.request 4 Shop.world
                  Shop.order4 _ _ Hrow Hrun))) _ _);
    vm_compute; reflexivity.
Defined.

(** Order 6: the poster line allocates, the shirt line does not; the
    poster stays allocated. *)
Lemma earlier_allocations_are_kept_shop :
  order_rows (db Shop.world2) !! 6%nat = Some Shop.order6 /\
  is_draft Shop.order6 = true /\
  validate_draft_order (db Shop.world2) Shop.order6
    (get_order_country Shop.order6) (plugins Shop.request) = None /\
  perform_mutation Shop.request 6 Shop.world2 =
    ((perform_mutation Shop.request 6 Shop.world2).1,
     Raised (ValidationError
               [("lines",
                 [mkErrorItem "Insufficient product stock." INSUFFICIENT_STOCK
                    [11%nat]])])) /\
  exists done line_data pending items,
    allocated_lines Shop.order6 = done ++ line_data :: pending /\
    lines_allocation Shop.request (get_order_country Shop.order6)
      (slug (channel Shop.order6)) done (stock (db Shop.world2)) =
      inl (stock (db (perform_mutation Shop.request 6 Shop.world2).1)) /\
    line_allocation Shop.request (get_order_country Shop.order6)
      (slug (channel Shop.order6)) line_data
      (stock (db (perform_mutation Shop.request 6 Shop.world2).1)) =
      inr items /\
    ValidationError
      [("lines",
        [mkErrorItem "Insufficient product stock." INSUFFICIENT_STOCK
           [11%nat]])] =
    ValidationError
      [("lines", prepare_insufficient_stock_order_validation_errors items)].
Proof.
  refine ((fun Hrow Hdraft Hvalid Hraised =>
             conj Hrow (conj Hdraft (conj Hvalid (conj Hraised
               (earlier_allocations_are_kept Shop.request 6 Shop.world2
                  Shop.order6 _ _ Hrow Hdraft Hvalid Hraised)))))
            _ _ _ _);
    vm_compute; reflexivity.
Defined.

(** The poster taken for order 6 is gone from the warehouse pool although
    the completion failed. *)
Example poster_stays_allocated :
  Shop.warehouse_pool (stock (db Shop.world2)) !! 5%nat = Some 5 /\
  Shop.warehouse_pool
    (stock (db (perform_mutation Shop.request 6 Shop.world2).1)) !! 5%nat
    = Some 4.
Proof. split; vm_compute; reflexivity. Qed.

(** Order 1 has no user and the email of Ann. *)
Lemma saved_order_has_resolved_customer_shop :
  order_rows (db Shop.world) !! 1%nat = Some Shop.order1 /\
  is_draft Shop.order1 = true /\
  validate_draft_order (db Shop.world) Shop.order1
    (get_order_country Shop.order1) (plugins Shop.request) = None /\
  exists order',
    order_rows (db (perform_mutation Shop.request 1 Shop.world).1) !! 1%nat
      = Some order' /\
    match user Shop.order1 with
    | Some u => user order' = Some u /\ user_email order' = email u
    | None =>
        user_email order' = user_email Shop.order1 /\
        user order' =
          if truthy (user_email Shop.order1)
          then user_rows (db Shop.world) !! user_email Shop.order1
          else None
    end.
Proof.
  refine ((fun Hrow Hdraft Hvalid =>
             conj Hrow (conj Hdraft (conj Hvalid
               (saved_order_has_resolved_customer Shop.request 1 Shop.world
                  Shop.order1 Hrow Hdraft Hvalid))))
            _ _ _);
    vm_compute; reflexivity.
Defined.

Lemma search_document_of_finalized_order_shop :
  order_rows (db Shop.world) !! 4%nat = Some Shop.order4 /\
  is_draft Shop.order4 = true /\
  validate_draft_order (db Shop.world) Shop.order4
    (get_order_country Shop.order4) (plugins Shop.request) = None /\
  exists order' d,
    order_rows (db (perform_mutation Shop.request 4 Shop.world).1) !! 4%nat
      = Some order' /\
    status order' = UNFULFILLED /\
    search_document order' =
      prepare_order_search_document_value d
        (set_search_document (search_document Shop.order4) order') /\
    order_rows (db (perform_mutation Shop.request 4 Shop.world).1) =
      <[4%nat := order']> (order_rows d) /\
    address_rows d =
      address_rows (db (perform_mutation Shop.request 4 Shop.world).1) /\
    user_rows d =
      user_rows (db (perform_mutation Shop.request 4 Shop.world).1) /\
    stock d = stock (db Shop.world).
Proof.
  refine ((fun Hrow Hdraft Hvalid =>
             conj Hrow (conj Hdraft (conj Hvalid
               (search_document_of_finalized_order Shop.request 4 Shop.world
                  Shop.order4 Hrow Hdraft Hvalid))))
            _ _ _);
    vm_compute; reflexivity.
Defined.

(** Order 6 has Ann attached and another email; the saved order has
    Ann's. *)
Lemma saved_order_email_is_its_users_shop :
  (forall e u, user_rows (db Shop.world2) !! e = Some u -> email u = e) /\
  order_rows (db Shop.world2) !! 6%nat = Some Shop.order6 /\
  is_draft Shop.order6 = true /\
  validate_draft_order (db Shop.world2) Shop.order6
    (get_order_country Shop.order6) (plugins Shop.request) = None /\
  exists order',
    order_rows (db (perform_mutation Shop.request 6 Shop.world2).1) !! 6%nat
      = Some order' /\
    forall u, user order' = Some u -> user_email order' = email u.
Proof.
  refine ((fun Hkeys Hrow Hdraft Hvalid =>
             conj Hkeys (conj Hrow (conj Hdraft (conj Hvalid
               (saved_order_email_is_its_users Shop.request 6 Shop.world2
                  Shop.order6 Hkeys Hrow Hdraft Hvalid)))))
            _ _ _ _);
    try (vm_compute; reflexivity).
  intros e u Hu. cbn in Hu.
  apply lookup_insert_Some in Hu as [[<- <-] | [_ Hu]]; [reflexivity|].
  now rewrite lookup_empty in Hu.
Defined.
